(** * Python crash course: the executable teaching examples

    The repository is a set of lessons.  What runs in it are the code cells
    of [exercises/oop-exercises.ipynb] (a toy library-management model), the
    exception examples of [docs/core-concepts/exception-handling.md], and the
    file-handling snippets of the serialization, context-manager and
    file-handling lessons.  Each is translated below into a function over an
    explicit Python world: a heap of objects addressed by identity, the text
    written to stdout, and the files the process can see. *)

From Stdlib Require Import ZArith String Ascii DecimalString Lia ssreflect.
From Stdlib Require Floats QArith.
From stdpp Require Import gmap strings list fin_maps.

Local Open Scope Z_scope.

(** ** The Python runtime the examples rely on *)

Module Py.

(** Object identity ([id(obj)]). *)
Definition loc := nat.

(** The exceptions the examples raise or can run into. *)
Inductive pyexn :=
| AttributeError
| NameError
| TypeError
| ValueError (msg : string)
| FileNotFoundError (path : string)
| UnpicklingError
| JSONDecodeError
| InsufficientFundsError (msg : string).

(** A process: heap of objects of type [O], stdout, and the files it can
    see, by path. *)
Record world (O : Type) := World {
  heap : gmap loc O;
  stdout : string;
  files : gmap string string
}.
Arguments World {O} _ _ _.
Arguments heap {O} _.
Arguments stdout {O} _.
Arguments files {O} _.

(** A statement or call: it runs in a world, and either raises or returns;
    effects performed before a raise stay. *)
Definition Py (O A : Type) : Type := world O -> (pyexn + A) * world O.

Section Monad.
Context {O : Type}.

Definition ret {A} (a : A) : Py O A := fun w => (inr a, w).

Definition bind {A B} (c : Py O A) (k : A -> Py O B) : Py O B :=
  fun w =>
    match c w with
    | (inr a, w') => k a w'
    | (inl e, w') => (inl e, w')
    end.

Definition raise {A} (e : pyexn) : Py O A := fun w => (inl e, w).

(** [try: c  except <handles>: h] *)
Definition try_except {A} (c : Py O A) (handles : pyexn -> bool)
    (h : pyexn -> Py O A) : Py O A :=
  fun w =>
    match c w with
    | (inl e, w') => if handles e then h e w' else (inl e, w')
    | r => r
    end.

(** [try: c  finally: f] *)
Definition try_finally {A} (c : Py O A) (f : Py O unit) : Py O A :=
  fun w =>
    match c w with
    | (r, w') =>
        match f w' with
        | (inr _, w'') => (r, w'')
        | (inl e, w'') => (inl e, w'')
        end
    end.

Definition get_files : Py O (gmap string string) :=
  fun w => (inr (files w), w).

Definition set_files (fs : gmap string string) : Py O unit :=
  fun w => (inr tt, World (heap w) (stdout w) fs).

(** A new object gets an identity no live object has. *)
Definition alloc (o : O) : Py O loc :=
  fun w =>
    let l := fresh (dom (heap w)) in
    (inr l, World (<[l := o]> (heap w)) (stdout w) (files w)).

(** Reading through a reference. *)
Definition deref (l : loc) : Py O O :=
  fun w =>
    match heap w !! l with
    | Some o => (inr o, w)
    | None => (inl AttributeError, w)
    end.

Definition store (l : loc) (o : O) : Py O unit :=
  fun w => (inr tt, World (<[l := o]> (heap w)) (stdout w) (files w)).

End Monad.

(** A computation that leaves the world as it found it. *)
Definition readonly {O A} (c : Py O A) : Prop := forall w, (c w).2 = w.

Notation "x <- c ;; k" := (bind c (fun x => k))
  (at level 20, c at level 99, k at level 200, only parsing).

(** *** Text *)

Definition nl : string := String (ascii_of_nat 10) EmptyString.

(** [print(s)] for a string [s]: the text and a newline go to stdout. *)
Definition print {O} (s : string) : Py O unit :=
  fun w => (inr tt, World (heap w) (stdout w +:+ s +:+ nl) (files w)).

(** [str(n)] of an int, also what [f"{n}"] inserts: the decimal digits, with
    a minus sign for a negative number.  (The interpreter's configurable cap
    on the number of digits it converts is not part of the model.) *)
Definition str_int (n : Z) : string := NilZero.string_of_int (Z.to_int n).

Definition hex_digit (n : nat) : ascii :=
  if (n <? 10)%nat then ascii_of_nat (48 + n) else ascii_of_nat (87 + n).

Definition contains (c : ascii) (s : string) : bool :=
  existsb (Ascii.eqb c) (list_ascii_of_string s).

Definition squote : ascii := ascii_of_nat 39.
Definition dquote : ascii := ascii_of_nat 34.
Definition backslash : ascii := ascii_of_nat 92.

(** One character of [repr] of a str, for the chosen quote. *)
Definition repr_char (q c : ascii) : string :=
  let n := nat_of_ascii c in
  if Ascii.eqb c q || Ascii.eqb c backslash then
    String backslash (String c EmptyString)
  else if (n =? 9)%nat then String backslash "t"
  else if (n =? 10)%nat then String backslash "n"
  else if (n =? 13)%nat then String backslash "r"
  else if (n <? 32)%nat || (n =? 127)%nat then
    String backslash
      (String "x" (String (hex_digit (n / 16))
                     (String (hex_digit (n mod 16)) EmptyString)))
  else String c EmptyString.

(** [repr(s)] of a str: single quotes, unless the text has a single quote
    and no double quote.  Bytes from 128 up are kept, as printable
    non-ASCII text is. *)
Definition repr_str (s : string) : string :=
  let q := if contains squote s && negb (contains dquote s)
           then dquote else squote in
  String q (String.concat "" (map (repr_char q) (list_ascii_of_string s))
            +:+ String q EmptyString).

(** [repr] of a list of str, as [print] shows it. *)
Definition repr_list_str (l : list string) : string :=
  "[" +:+ String.concat ", " (map repr_str l) +:+ "]".

End Py.

(** ** exercises/oop-exercises.ipynb: the library-management classes *)

Module Notebook.
Import Py.

(** The attributes [Book.__init__] sets. *)
Record book := MkBook { title : string; author : string; year : Z }.

(** Instances of the notebook's classes, by class, with the attributes
    their [__init__] sets, and the list objects they hold.  Parameters are
    typed as annotated; the parameters without annotation ([file_size],
    [duration], [rating]) are ints, as the notebook passes them.  [books]
    and [borrowed_books] hold a reference to a list object: lists are
    mutable and shared by reference. *)
Inductive pyobj :=
| BookObj (b : book)
| EBookObj (b : book) (file_size : Z)
| AudioBookObj (b : book) (duration : Z)
| UserObj (name : string) (age : Z)
| LibraryObj (name : string) (books : loc)
| LibraryMemberObj (user : loc) (borrowed_books : loc)
| RatingObj (rating : Z)
| ListObj (items : list loc).

Abbreviation M := (Py pyobj).

(** *** Lists *)

(** [l.append(x)] *)
Definition list_append (l x : loc) : M unit :=
  o <- deref l;;
  match o with
  | ListObj items => store l (ListObj (items ++ [x]))
  | _ => raise AttributeError
  end.

(** [len(l)] *)
Definition list_len (l : loc) : M Z :=
  o <- deref l;;
  match o with
  | ListObj items => ret (Z.of_nat (length items))
  | _ => raise TypeError
  end.

(** [[f(x) for x in xs]] *)
Fixpoint comprehension {A} (f : loc -> M A) (xs : list loc) : M (list A) :=
  match xs with
  | [] => ret []
  | x :: xs' => a <- f x;; r <- comprehension f xs';; ret (a :: r)
  end.

(** *** Step 1: Book *)

Definition Book__init__ (title author : string) (year : Z) : book :=
  MkBook title author year.

Definition Book (title author : string) (year : Z) : M loc :=
  alloc (BookObj (Book__init__ title author year)).

(** The [title], [author], [year] of an instance of [Book] or of one of
    its subclasses. *)
Definition book_attrs (o : pyobj) : option book :=
  match o with
  | BookObj b | EBookObj b _ | AudioBookObj b _ => Some b
  | _ => None
  end.

Definition Book_get_info (self : loc) : M string :=
  o <- deref self;;
  match book_attrs o with
  | Some b =>
      ret (title b +:+ " by " +:+ author b +:+ ", published in "
           +:+ str_int (year b))
  | None => raise AttributeError
  end.

(** *** Step 2: User, with its name-mangled private attributes *)

Definition User (name : string) (age : Z) : M loc :=
  alloc (UserObj name age).

Definition User_get_user_info (self : loc) : M string :=
  o <- deref self;;
  match o with
  | UserObj name age => ret ("User: " +:+ name +:+ ", Age: " +:+ str_int age)
  | _ => raise AttributeError
  end.

Definition User_set_age (self : loc) (new_age : Z) : M unit :=
  o <- deref self;;
  match o with
  | UserObj name _ =>
      if 0 <? new_age then store self (UserObj name new_age)
      else print "Invalid age!"
  | _ => raise AttributeError
  end.

(** *** Step 3: Library *)

Definition Library (name : string) : M loc :=
  books <- alloc (ListObj []);;
  alloc (LibraryObj name books).

Definition Library_add_book (self book : loc) : M unit :=
  o <- deref self;;
  match o with
  | LibraryObj _ books => list_append books book
  | _ => raise AttributeError
  end.

Definition Library__len__ (self : loc) : M Z :=
  o <- deref self;;
  match o with
  | LibraryObj _ books => list_len books
  | _ => raise AttributeError
  end.

Definition Library__str__ (self : loc) : M string :=
  o <- deref self;;
  match o with
  | LibraryObj name books =>
      n <- list_len books;;
      ret ("Library: " +:+ name +:+ " with " +:+ str_int n +:+ " books")
  | _ => raise AttributeError
  end.

(** *** Steps 4 and 5: EBook and AudioBook, subclasses of Book *)

Definition EBook (title author : string) (year file_size : Z) : M loc :=
  alloc (EBookObj (Book__init__ title author year) file_size).

Definition EBook_get_info (self : loc) : M string :=
  s <- Book_get_info self;;
  o <- deref self;;
  match o with
  | EBookObj _ file_size =>
      ret (s +:+ " (File size: " +:+ str_int file_size +:+ "MB)")
  | _ => raise AttributeError
  end.

Definition AudioBook (title author : string) (year duration : Z) : M loc :=
  alloc (AudioBookObj (Book__init__ title author year) duration).

Definition AudioBook_get_info (self : loc) : M string :=
  s <- Book_get_info self;;
  o <- deref self;;
  match o with
  | AudioBookObj _ duration =>
      ret (s +:+ " (Duration: " +:+ str_int duration +:+ " min)")
  | _ => raise AttributeError
  end.

(** [obj.get_info()]: the method of the class of [obj]. *)
Definition get_info (self : loc) : M string :=
  o <- deref self;;
  match o with
  | BookObj _ => Book_get_info self
  | EBookObj _ _ => EBook_get_info self
  | AudioBookObj _ _ => AudioBook_get_info self
  | _ => raise AttributeError
  end.

(** *** Step 6: LibraryMember *)

Definition LibraryMember (user : loc) : M loc :=
  borrowed_books <- alloc (ListObj []);;
  alloc (LibraryMemberObj user borrowed_books).

Definition LibraryMember_borrow_book (self book : loc) : M unit :=
  o <- deref self;;
  match o with
  | LibraryMemberObj _ borrowed_books => list_append borrowed_books book
  | _ => raise AttributeError
  end.

Definition LibraryMember_get_borrowed_books (self : loc) : M (list string) :=
  o <- deref self;;
  match o with
  | LibraryMemberObj _ borrowed_books =>
      l <- deref borrowed_books;;
      match l with
      | ListObj items => comprehension get_info items
      | _ => raise TypeError
      end
  | _ => raise AttributeError
  end.

(** *** Step 7: Rating *)

Definition Rating (rating : Z) : M loc := alloc (RatingObj rating).

Definition Rating__add__ (self other : loc) : M loc :=
  a <- deref self;;
  match a with
  | RatingObj r1 =>
      b <- deref other;;
      match b with
      | RatingObj r2 => Rating (r1 + r2)
      | _ => raise AttributeError
      end
  | _ => raise AttributeError
  end.

Definition Rating__str__ (self : loc) : M string :=
  o <- deref self;;
  match o with
  | RatingObj rating => ret ("Rating: " +:+ str_int rating +:+ "/5")
  | _ => raise AttributeError
  end.

(** *** Step 8: the metaclass MetaBook *)

(** Values a class body can bind.  Besides data there are the objects
    whose methods Python calls when a class is created or read:
    - [VFunction body] is a function [def f(cls): ...] whose body does
      the listed [setattr(cls, attr, value)] and [delattr(cls, attr)], in
      order;
    - [VObject set_name get] is an instance of a class of the user's:
      [set_name] lists what its [__set_name__(self, owner, name)] does to
      [owner], and [get] is what its [__get__(self, None, owner)]
      returns, each when its class defines the method;
    - [VMember slot] is the descriptor that [type.__new__] makes for a
      slot. *)
#[warnings="-register-all"]
Inductive pyval :=
| VNone
| VInt (n : Z)
| VStr (s : string)
| VTuple (items : list pyval)
| VFunction (body : list effect)
| VObject (set_name : option (list effect)) (get : option pyval)
| VMember (slot : string)
with effect :=
| SetAttr (attr : string) (value : pyval)
| DelAttr (attr : string).

(** A class object: its identity, its name, its bases, the rest of its
    [__mro__] after the class itself and its [__dict__].  The classes are
    those whose metaclass is [type] or [MetaBook]; what every class takes
    from [object] and [type] themselves (the names between double
    underscores, and [mro]) is not part of the model. *)
#[warnings="-register-all"]
Inductive pyclass :=
| Class (id : nat) (name : string) (bases mro : list pyclass)
        (dict : gmap string pyval).

Definition class_id (c : pyclass) : nat :=
  match c with Class i _ _ _ _ => i end.

Definition class_mro (c : pyclass) : list pyclass :=
  match c with Class _ _ _ m _ => m end.

Definition class_dict (c : pyclass) : gmap string pyval :=
  match c with Class _ _ _ _ d => d end.

(** The assignments [d[k] = v], in order. *)
Definition setattrs (d : gmap string pyval) (assigns : list (string * pyval))
    : gmap string pyval :=
  foldl (fun d kv => <[kv.1 := kv.2]> d) d assigns.

(** The body of a hook run on a class with dict [d]: [delattr] of a name
    that the class itself does not bind raises AttributeError.
    Assignments to the attributes that [type] keeps for every class
    ([__bases__], [__name__] and the like) are not modelled. *)
Fixpoint run_effects (d : gmap string pyval) (body : list effect)
    : pyexn + gmap string pyval :=
  match body with
  | [] => inr d
  | SetAttr attr value :: rest => run_effects (<[attr := value]> d) rest
  | DelAttr attr :: rest =>
      match d !! attr with
      | Some _ => run_effects (delete attr d) rest
      | None => inl AttributeError
      end
  end.

(** The attribute an effect is about. *)
Definition target (e : effect) : string :=
  match e with SetAttr attr _ | DelAttr attr => attr end.

(** A dict is given by the assignments [dct[k] = v] that filled it, in
    order: [dict_of] is what it binds and [keys_of] the order of its keys,
    which is the order in which they were first bound. *)
Definition dict_of (dct : list (string * pyval)) : gmap string pyval :=
  setattrs ∅ dct.

Definition keys_of (dct : list (string * pyval)) : list string :=
  reverse (remove_dups (reverse dct.*1)).

(** [str.isidentifier] on ASCII names; a name with another character,
    some of which Python accepts, is refused here. *)
Definition ident_start (a : ascii) : bool :=
  let n := nat_of_ascii a in
  ((65 <=? n) && (n <=? 90) || (97 <=? n) && (n <=? 122) || (n =? 95))%nat.

Definition ident_continue (a : ascii) : bool :=
  let n := nat_of_ascii a in
  (ident_start a || (48 <=? n) && (n <=? 57))%nat.

Definition isidentifier (s : string) : bool :=
  match s with
  | EmptyString => false
  | String a s' =>
      ident_start a && forallb ident_continue (list_ascii_of_string s')
  end.

Fixpoint lstrip_underscores (s : string) : string :=
  match s with
  | String "_" s' => lstrip_underscores s'
  | _ => s
  end.

(** A name between double underscores. *)
Definition dunder (s : string) : bool :=
  String.prefix "__" s && String.prefix "__" (String.rev s).

(** The private name [__x] of class [C] is [_C__x]. *)
Definition mangle (class_name ident : string) : string :=
  if String.prefix "__" ident && negb (String.prefix "__" (String.rev ident))
  then
    match lstrip_underscores class_name with
    | EmptyString => ident
    | stripped => "_" +:+ stripped +:+ ident
    end
  else ident.

(** The names a [__slots__] entry declares. *)
Definition slot_names (v : pyval) : pyexn + list string :=
  match v with
  | VStr s => inr [s]
  | VTuple items =>
      match mapM (fun i => match i with VStr s => Some s | _ => None end)
                 items with
      | Some names => inr names
      | None => inl TypeError
      end
  | _ => inl TypeError
  end.

Definition count_of (s : string) (names : list string) : nat :=
  length (filter (fun n => n = s) names).

(** The slots of the new class: the declared names must be identifiers,
    [__dict__] and [__weakref__] may come once, and a slot that the
    namespace also binds is refused.  That a base may already provide
    [__dict__] or [__weakref__], or a layout of its own, is not
    modelled. *)
Definition type_new_slots (name : string) (d : gmap string pyval)
    : pyexn + list string :=
  match d !! "__slots__" with
  | None => inr []
  | Some v =>
      match slot_names v with
      | inl e => inl e
      | inr names =>
          if negb (forallb isidentifier names) then inl TypeError
          else if (1 <? count_of "__dict__" names)%nat
                  || (1 <? count_of "__weakref__" names)%nat
          then inl TypeError
          else
            let slots :=
              mangle name <$>
                filter (fun n => n <> "__dict__" /\ n <> "__weakref__") names in
            match List.find
                    (fun slot => bool_decide (is_Some (d !! slot))
                                 && negb (String.eqb slot "__qualname__")
                                 && negb (String.eqb slot "__classcell__"))
                    slots with
            | Some slot =>
                inl (ValueError
                       (repr_str slot
                        +:+ " in __slots__ conflicts with class variable"))
            | None => inr slots
            end
      end
  end.

Definition add_members (d : gmap string pyval) (slots : list string)
    : gmap string pyval :=
  foldl (fun d slot => <[slot := VMember slot]> d) d slots.

(** The linearisation of the bases (C3): the next class is the first head
    of a sequence that is in the tail of none.  Classes are told apart by
    their identity. *)
Definition same_class (a b : pyclass) : bool :=
  Nat.eqb (class_id a) (class_id b).

Definition in_tail (c : pyclass) (seq : list pyclass) : bool :=
  existsb (same_class c) (tail seq).

Fixpoint next_head (seqs candidates : list (list pyclass)) : option pyclass :=
  match candidates with
  | [] => None
  | [] :: rest => next_head seqs rest
  | (c :: _) :: rest =>
      if existsb (in_tail c) seqs then next_head seqs rest else Some c
  end.

Definition drop_head (c : pyclass) (seq : list pyclass) : list pyclass :=
  match seq with
  | h :: rest => if same_class c h then rest else seq
  | [] => []
  end.

Fixpoint merge (fuel : nat) (seqs : list (list pyclass))
    : option (list pyclass) :=
  if forallb (fun seq => bool_decide (seq = [])) seqs then Some []
  else
    match fuel with
    | O => None
    | S fuel =>
        match next_head seqs seqs with
        | None => None
        | Some c => (c ::.) <$> merge fuel (drop_head c <$> seqs)
        end
    end.

(** Every step takes a class away, so the number of classes in the
    sequences is fuel enough; [None] is an order that cannot be made. *)
Definition linearise (bases : list pyclass) : option (list pyclass) :=
  let seqs := ((fun b => b :: class_mro b) <$> bases) ++ [bases] in
  merge (length (concat seqs)) seqs.

(** The first binding of [attr] along a list of classes. *)
Fixpoint lookup_mro (mro : list pyclass) (attr : string) : option pyval :=
  match mro with
  | [] => None
  | c :: rest =>
      match class_dict c !! attr with
      | Some v => Some v
      | None => lookup_mro rest attr
      end
  end.

(** What the [__set_name__] of a value does to the new class. *)
Definition set_name_of (v : option pyval) : list effect :=
  match v with
  | Some (VObject (Some body) _) => body
  | _ => []
  end.

(** The [__set_name__] calls: for every key of the namespace in order,
    on the value the new class was given under it.  An exception of a
    hook ends the creation (as it is, which is Python 3.12, the version
    of the notebook; earlier versions raise RuntimeError from it). *)
Fixpoint set_names (keys : list string) (names d : gmap string pyval)
    : pyexn + gmap string pyval :=
  match keys with
  | [] => inr d
  | k :: rest =>
      match run_effects d (set_name_of (names !! k)) with
      | inl e => inl e
      | inr d' => set_names rest names d'
      end
  end.

(** [super().__init_subclass__()]: the first [__init_subclass__] along
    the bases' linearisation, and [object]'s, which does nothing, when
    there is none. *)
Definition init_subclass (mro : list pyclass) : pyexn + list effect :=
  match lookup_mro mro "__init_subclass__" with
  | None => inr []
  | Some (VFunction body) => inr body
  | Some _ => inl TypeError
  end.

(** The checks of [type.__new__] on the name of the class and on the
    entries of the namespace it reads itself: the name holds no null
    character, [__qualname__] is a str, and [__classcell__] is a cell,
    which no value here is. *)
Definition type_new_set_attrs (name : string) (names : gmap string pyval)
    : option pyexn :=
  if contains "000" name
  then Some (ValueError "type name must not contain null characters")
  else
    match names !! "__qualname__", names !! "__classcell__" with
    | (Some (VStr _) | None), None => None
    | _, _ => Some TypeError
    end.

(** [type.__new__(cls, name, bases, dct)]: the slots, the name and the
    namespace are checked, [__qualname__] is taken out of the namespace,
    the bases are linearised, the class gets the entries of [dct] and a
    member for each slot; then the [__set_name__] hooks of these entries
    run, and then the inherited [__init_subclass__].  The entries
    [type.__new__] adds under names between double underscores
    ([__dict__], [__weakref__], [__doc__]) are left out, and so is a
    metaclass conflict. *)
Definition type__new__ (id : nat) (name : string) (bases : list pyclass)
    (dct : list (string * pyval)) : pyexn + pyclass :=
  let names := dict_of dct in
  match type_new_slots name names with
  | inl e => inl e
  | inr slots =>
      match type_new_set_attrs name names with
      | Some e => inl e
      | None =>
          match linearise bases with
          | None => inl TypeError
          | Some mro =>
              let names := add_members (delete "__qualname__" names) slots in
              match set_names (keys_of dct) names names with
              | inl e => inl e
              | inr d =>
                  match init_subclass mro with
                  | inl e => inl e
                  | inr body =>
                      match run_effects d body with
                      | inl e => inl e
                      | inr d' => inr (Class id name bases mro d')
                      end
                  end
              end
          end
      end
  end.

Definition MetaBook__new__ (id : nat) (name : string) (bases : list pyclass)
    (dct : list (string * pyval)) : pyexn + pyclass :=
  let dct := dct ++ [("category", VStr "General")] in
  type__new__ id name bases dct.

(** The namespace of a class statement: [__module__] and [__qualname__],
    then the assignments of the body. *)
Definition class_namespace (name : string) (body : list (string * pyval))
    : list (string * pyval) :=
  [("__module__", VStr "__main__"); ("__qualname__", VStr name)] ++ body.

(** [class name(bases, metaclass=MetaBook): body]; [id] is the identity of
    the new class object. *)
Definition class_MetaBook (id : nat) (name : string) (bases : list pyclass)
    (body : list (string * pyval)) : pyexn + pyclass :=
  MetaBook__new__ id name bases (class_namespace name body).

(** [C.attr]: the first binding along [C.__mro__], through its [__get__]
    when it has one. *)
Definition class_getattr (c : pyclass) (attr : string) : pyexn + pyval :=
  match lookup_mro (c :: class_mro c) attr with
  | None => inl AttributeError
  | Some (VObject _ (Some result)) => inr result
  | Some v => inr v
  end.

Definition SpecialBook : pyexn + pyclass :=
  class_MetaBook 0 "SpecialBook" [] [].

(** The attributes that the hooks run at the creation of a class from
    [dct] and [bases] assign or delete on it. *)
Definition rebound (bases : list pyclass) (dct : list (string * pyval))
    : list string :=
  flat_map (fun k => target <$> set_name_of (dict_of dct !! k)) (keys_of dct)
  ++ match linearise bases with
     | Some mro =>
         match init_subclass mro with
         | inr body => target <$> body
         | inl _ => []
         end
     | None => []
     end.

Definition rebinds (attr : string) (bases : list pyclass)
    (dct : list (string * pyval)) : bool :=
  existsb (String.eqb attr) (rebound bases dct).

(** A class whose subclasses are put on a shelf by its
    [__init_subclass__]. *)
Definition Shelved : pyclass :=
  Class 1 "Shelved" [] []
    (<["__init_subclass__" := VFunction [SetAttr "shelf" (VInt 3)]]>
       {[ "__module__" := VStr "__main__" ]}).

(** An object whose [__set_name__] does [owner.category = "Tagged"]. *)
Definition tagger : pyval :=
  VObject (Some [SetAttr "category" (VStr "Tagged")]) None.

(** Every class MetaBook creates has [category] equal to "General". *)
Definition every_MetaBook_class_is_General : Prop :=
  forall (id : nat) (name : string) (bases : list pyclass)
         (body : list (string * pyval)) (c : pyclass),
    class_MetaBook id name bases body = inr c ->
    class_getattr c "category" = inr (VStr "General").

(** [str(v)] for the values above that the notebook prints. *)
Definition str_val (v : pyval) : M string :=
  match v with
  | VNone => ret "None"
  | VInt n => ret (str_int n)
  | VStr s => ret s
  | _ => raise TypeError
  end.

(** *** The notebook: its code cells, run in order *)

Definition lift {A} (r : pyexn + A) : M A :=
  match r with inl e => raise e | inr a => ret a end.

(** Running a cell: what it prints is the cell's output. *)
Definition cell {A} (c : M A) : M (A * string) :=
  fun w =>
    match c (World (heap w) "" (files w)) with
    | (inr a, w') => (inr (a, stdout w'), w')
    | (inl e, w') => (inl e, w')
    end.

(** The usage cell of step 7. *)
Definition rating_usage : M loc :=
  rating1 <- Rating 4;;
  rating2 <- Rating 5;;
  final_rating <- Rating__add__ rating1 rating2;;
  s <- Rating__str__ final_rating;;
  _ <- print s;;
  ret final_rating.

(** [for b in bs: library.add_book(b)] *)
Fixpoint add_books (library : loc) (bs : list loc) : M unit :=
  match bs with
  | [] => ret tt
  | b :: bs' => _ <- Library_add_book library b;; add_books library bs'
  end.

(** The sixteen code cells; the result lists the output of each. *)
Definition notebook : M (list string) :=
  c1 <- cell (ret tt);;                               (* class Book *)
  c2 <- cell (book1 <- Book "1984" "George Orwell" 1949;;
              s <- get_info book1;;
              _ <- print s;;
              ret book1);;
  let book1 := c2.1 in
  c3 <- cell (ret tt);;                               (* class User *)
  c4 <- cell (user1 <- User "Alice" 28;;
              s <- User_get_user_info user1;;
              _ <- print s;;
              ret user1);;
  let user1 := c4.1 in
  c5 <- cell (ret tt);;                               (* class Library *)
  c6 <- cell (library <- Library "City Library";;
              _ <- Library_add_book library book1;;
              s <- Library__str__ library;;
              _ <- print s;;
              n <- Library__len__ library;;
              _ <- print ("Number of books: " +:+ str_int n);;
              ret library);;
  c7 <- cell (ret tt);;                               (* class EBook *)
  c8 <- cell (ebook1 <- EBook "Python Guide" "John Doe" 2022 5;;
              s <- get_info ebook1;;
              _ <- print s;;
              ret ebook1);;
  c9 <- cell (ret tt);;                               (* class AudioBook *)
  c10 <- cell (audiobook1 <- AudioBook "Learn Python" "Jane Doe" 2023 300;;
               s <- get_info audiobook1;;
               _ <- print s;;
               ret audiobook1);;
  c11 <- cell (ret tt);;                              (* class LibraryMember *)
  c12 <- cell (member1 <- LibraryMember user1;;
               _ <- LibraryMember_borrow_book member1 book1;;
               l <- LibraryMember_get_borrowed_books member1;;
               _ <- print (repr_list_str l);;
               ret member1);;
  c13 <- cell (ret tt);;                              (* class Rating *)
  c14 <- cell rating_usage;;
  c15 <- cell (lift SpecialBook);;          (* class MetaBook, SpecialBook *)
  let SpecialBook := c15.1 in
  c16 <- cell (v <- lift (class_getattr SpecialBook "category");;
               s <- str_val v;;
               print s);;
  ret [c1.2; c2.2; c3.2; c4.2; c5.2; c6.2; c7.2; c8.2;
       c9.2; c10.2; c11.2; c12.2; c13.2; c14.2; c15.2; c16.2].

(** A kernel that has run nothing yet. *)
Definition fresh_kernel : world pyobj := World ∅ "" ∅.

(** *** Method calls on the notebook's objects *)

Inductive call :=
| Call_get_info (self : loc)
| Call_get_user_info (self : loc)
| Call_set_age (self : loc) (new_age : Z)
| Call_add_book (self book : loc)
| Call_Library__str__ (self : loc)
| Call_Library__len__ (self : loc)
| Call_borrow_book (self book : loc)
| Call_get_borrowed_books (self : loc)
| Call_Rating__add__ (self other : loc)
| Call_Rating__str__ (self : loc).

Definition discard {A} (c : M A) : M unit := _ <- c;; ret tt.

Definition invoke (c : call) : M unit :=
  match c with
  | Call_get_info self => discard (get_info self)
  | Call_get_user_info self => discard (User_get_user_info self)
  | Call_set_age self new_age => User_set_age self new_age
  | Call_add_book self book => Library_add_book self book
  | Call_Library__str__ self => discard (Library__str__ self)
  | Call_Library__len__ self => discard (Library__len__ self)
  | Call_borrow_book self book => LibraryMember_borrow_book self book
  | Call_get_borrowed_books self =>
      discard (LibraryMember_get_borrowed_books self)
  | Call_Rating__add__ self other => discard (Rating__add__ self other)
  | Call_Rating__str__ self => discard (Rating__str__ self)
  end.

(** The calls that assign to an attribute or append to a list. *)
Definition mutates (c : call) : bool :=
  match c with
  | Call_add_book _ _ | Call_borrow_book _ _ => true
  | Call_set_age _ new_age => 0 <? new_age
  | _ => false
  end.

(** *** Constructor calls, and the worlds a session can reach *)

Inductive construct :=
| New_Book (title author : string) (year : Z)
| New_EBook (title author : string) (year file_size : Z)
| New_AudioBook (title author : string) (year duration : Z)
| New_User (name : string) (age : Z)
| New_Library (name : string)
| New_LibraryMember (user : loc)
| New_Rating (rating : Z).

Definition create (c : construct) : M loc :=
  match c with
  | New_Book t a y => Book t a y
  | New_EBook t a y f => EBook t a y f
  | New_AudioBook t a y d => AudioBook t a y d
  | New_User n a => User n a
  | New_Library n => Library n
  | New_LibraryMember u => LibraryMember u
  | New_Rating r => Rating r
  end.

Inductive action :=
| Construct (c : construct)
| Invoke (c : call).

Definition perform (a : action) : M unit :=
  match a with
  | Construct c => discard (create c)
  | Invoke c => invoke c
  end.

(** The objects an action is applied to. *)
Definition refs (a : action) : list loc :=
  match a with
  | Construct (New_LibraryMember u) => [u]
  | Construct _ => []
  | Invoke (Call_add_book s b) | Invoke (Call_borrow_book s b)
  | Invoke (Call_Rating__add__ s b) => [s; b]
  | Invoke (Call_get_info s) | Invoke (Call_get_user_info s)
  | Invoke (Call_set_age s _) | Invoke (Call_Library__str__ s)
  | Invoke (Call_Library__len__ s) | Invoke (Call_get_borrowed_books s)
  | Invoke (Call_Rating__str__ s) => [s]
  end.

(** Worlds reached from a fresh kernel by constructor and method calls on
    live objects; an exception ends a statement and leaves the kernel
    running. *)
Inductive reachable : world pyobj -> Prop :=
| reachable_fresh : reachable fresh_kernel
| reachable_perform (w : world pyobj) (a : action) :
    reachable w ->
    (forall l, l ∈ refs a -> is_Some (heap w !! l)) ->
    reachable (perform a w).2.

(** The list an instance holds. *)
Definition owned_list (o : pyobj) : option loc :=
  match o with
  | LibraryObj _ l | LibraryMemberObj _ l => Some l
  | _ => None
  end.

Definition is_list (h : gmap loc pyobj) (l : loc) : Prop :=
  exists items, h !! l = Some (ListObj items).

(** No sharing of the lists: every [books] and [borrowed_books] attribute
    refers to a list object, no two instances hold the same list, and a
    member's [user] is not its own [borrowed_books]. *)
Definition separated (h : gmap loc pyobj) : Prop :=
  (forall l o lb, h !! l = Some o -> owned_list o = Some lb -> is_list h lb) /\
  (forall l1 l2 o1 o2 lb,
      h !! l1 = Some o1 -> h !! l2 = Some o2 ->
      owned_list o1 = Some lb -> owned_list o2 = Some lb -> l1 = l2) /\
  (forall l u lb, h !! l = Some (LibraryMemberObj u lb) -> u <> lb).

(** A session as a script of actions. *)
Definition run_actions (acts : list action) (w : world pyobj) : world pyobj :=
  fold_left (fun w a => (perform a w).2) acts w.

(** Every action of the script is applied to live objects. *)
Fixpoint valid_script (acts : list action) (w : world pyobj) : bool :=
  match acts with
  | [] => true
  | a :: rest =>
      forallb (fun l => bool_decide (is_Some (heap w !! l))) (refs a)
      && valid_script rest (perform a w).2
  end.

(** The objects the notebook builds, in its order: [book1] is object 0,
    [user1] 1, [library] 3 with its list 2, [ebook1] 4, [audiobook1] 5,
    [member1] 7 with its list 6, and the ratings 8, 9 and 10. *)
Definition notebook_script : list action :=
  [ Construct (New_Book "1984" "George Orwell" 1949);
    Construct (New_User "Alice" 28);
    Construct (New_Library "City Library");
    Invoke (Call_add_book 3%nat 0%nat);
    Construct (New_EBook "Python Guide" "John Doe" 2022 5);
    Construct (New_AudioBook "Learn Python" "Jane Doe" 2023 300);
    Construct (New_LibraryMember 1%nat);
    Invoke (Call_borrow_book 7%nat 0%nat);
    Construct (New_Rating 4);
    Construct (New_Rating 5);
    Invoke (Call_Rating__add__ 8%nat 9%nat) ].

Definition notebook_session : world pyobj :=
  run_actions notebook_script fresh_kernel.

(** One title as an e-book (object 0), an audiobook (1) and a book (2). *)
Definition python_guide : book := MkBook "Python Guide" "John Doe" 2022.

Definition three_editions : world pyobj :=
  run_actions
    [ Construct (New_EBook "Python Guide" "John Doe" 2022 5);
      Construct (New_AudioBook "Python Guide" "John Doe" 2022 300);
      Construct (New_Book "Python Guide" "John Doe" 2022) ]
    fresh_kernel.

(** The claim that method calls never change an existing object. *)
Definition no_state_change : Prop :=
  forall (c : call) (w : world pyobj) (l : loc) (o : pyobj),
    heap w !! l = Some o -> heap (invoke c w).2 !! l = Some o.

End Notebook.

(** ** docs/core-concepts/exception-handling.md: raising exceptions *)

Module ExceptionHandling.
Import Py.

Inductive pyobj :=
| BankAccountObj (balance : Z).

Abbreviation M := (Py pyobj).

(** Section 5: [check_age]. *)
Definition check_age (age : Z) : M unit :=
  if age <? 0 then raise (ValueError "Age cannot be negative.")
  else print "Valid age.".

(** Section 6: the [BankAccount] of the custom-exception example. *)
Definition BankAccount (balance : Z) : M loc :=
  alloc (BankAccountObj balance).

Definition BankAccount_withdraw (self : loc) (amount : Z) : M unit :=
  o <- deref self;;
  match o with
  | BankAccountObj balance =>
      if balance <? amount then
        raise (InsufficientFundsError "Insufficient funds for this transaction.")
      else store self (BankAccountObj (balance - amount))
  end.

Definition is_InsufficientFundsError (e : pyexn) : bool :=
  match e with InsufficientFundsError _ => true | _ => false end.

(** "Using Custom Exceptions": [print(e)] shows the message. *)
Definition using_custom_exceptions : M unit :=
  try_except
    (account <- BankAccount 100;; BankAccount_withdraw account 200)
    is_InsufficientFundsError
    (fun e => match e with
              | InsufficientFundsError msg => print msg
              | _ => ret tt
              end).

(** The world after [account = BankAccount(100)]: the account is object 0. *)
Definition account_of_100 : world pyobj := (BankAccount 100 (World ∅ "" ∅)).2.

End ExceptionHandling.

(** ** The exception-handling lesson on floats *)

(** [check_age] and [BankAccount] once more, for an age, a balance and an
    amount that are Python floats: the numbers of IEEE 754 binary64, with
    [<] and [>] their comparison, false on a NaN, and [-=] their
    subtraction, rounded to the nearest float. *)
Module ExceptionHandlingFloats.
Import Py Stdlib.Floats.Floats.

Inductive pyobj :=
| BankAccountObj (balance : float).

Abbreviation M := (Py pyobj).

Definition check_age (age : float) : M unit :=
  if (age <? 0)%float then raise (ValueError "Age cannot be negative.")
  else print "Valid age.".

Definition BankAccount (balance : float) : M loc :=
  alloc (BankAccountObj balance).

Definition BankAccount_withdraw (self : loc) (amount : float) : M unit :=
  o <- deref self;;
  match o with
  | BankAccountObj balance =>
      if (balance <? amount)%float then
        raise (InsufficientFundsError "Insufficient funds for this transaction.")
      else store self (BankAccountObj (balance - amount)%float)
  end.

(** The number a finite float stands for, as a fraction. *)
Definition exact (x : float) : option QArith_base.Q :=
  match Prim2SF x with
  | S754_zero _ => Some (QArith_base.Qmake 0 1)
  | S754_finite s m e =>
      Some (QArith_base.Qmult
              (QArith_base.Qmake (if s then Z.neg m else Z.pos m) 1)
              (QArith_base.Qpower (QArith_base.Qmake 2 1) e))
  | _ => None
  end.

(** A withdrawal that does not raise decreases the balance by exactly
    the amount. *)
Definition withdraw_decreases_the_balance_by_exactly_amount : Prop :=
  forall (w : world pyobj) (self : loc) (balance amount : float)
         (b a : QArith_base.Q),
    heap w !! self = Some (BankAccountObj balance) ->
    exact balance = Some b ->
    exact amount = Some a ->
    (BankAccount_withdraw self amount w).1 = inr tt ->
    exists (balance' : float) (b' : QArith_base.Q),
      heap (BankAccount_withdraw self amount w).2 !! self
      = Some (BankAccountObj balance') /\
      exact balance' = Some b' /\
      QArith_base.Qeq b' (QArith_base.Qminus b a).

(** The world after [account = BankAccount(1e16)]: the account is
    object 0. *)
Definition account_of_1e16 : world pyobj :=
  (BankAccount 1e16%float (World ∅ "" ∅)).2.

End ExceptionHandlingFloats.

(** ** The lessons' examples that touch data.txt, data.json and data.pkl *)

Module ScratchFiles.
Import Py.

(** The examples allocate no objects of their own classes that matter
    here; their world is stdout and the working directory.  They name
    their files themselves, in a directory taken to be writable, and
    write short plain text, which the files hold as it is; the
    primitives for any path and any bytes are those of [FileHandling]. *)
Abbreviation M := (Py unit).

(** [open(path, "w")] / [open(path, "wb")]: creates or truncates. *)
Definition open_write (path : string) : M string :=
  fs <- get_files;;
  _ <- set_files (<[path := ""]> fs);;
  ret path.

(** [open(path, "r")] / [open(path, "rb")] *)
Definition open_read (path : string) : M string :=
  fs <- get_files;;
  match fs !! path with
  | Some _ => ret path
  | None => raise (FileNotFoundError path)
  end.

(** [file.write(content)] on a file opened for writing. *)
Definition file_write (file content : string) : M unit :=
  fs <- get_files;;
  set_files (<[file := default "" (fs !! file) +:+ content]> fs).

(** [file.read()] *)
Definition file_read (file : string) : M string :=
  fs <- get_files;;
  ret (default "" (fs !! file)).

(** [os.remove(path)] *)
Definition os_remove (path : string) : M unit :=
  fs <- get_files;;
  match fs !! path with
  | Some _ => set_files (delete path fs)
  | None => raise (FileNotFoundError path)
  end.

(** [tempfile.NamedTemporaryFile(delete=False)]: [name] is the name the
    system picks for the new file. *)
Definition NamedTemporaryFile (name : string) : M string :=
  fs <- get_files;;
  _ <- set_files (<[name := ""]> fs);;
  ret name.

Definition is_FileNotFoundError (e : pyexn) : bool :=
  match e with FileNotFoundError _ => true | _ => false end.

Section Examples.
(** The [data] dictionary of the serialization lesson and the encoders
    and decoders of the [pickle] and [json] modules. *)
Variable data : Type.
Variable pickle_dumps json_dumps : data -> string.
Variable pickle_loads json_loads : string -> option data.
Variable repr_data : data -> string.

(** oop-applications/05_object-serialization.md, "Pickling". *)
Definition pickle_dump_example (d : data) : M unit :=
  file <- open_write "data.pkl";;
  file_write file (pickle_dumps d).

(** "Unpickling". *)
Definition pickle_load_example : M unit :=
  file <- open_read "data.pkl";;
  bytes <- file_read file;;
  match pickle_loads bytes with
  | Some loaded_data => print (repr_data loaded_data)
  | None => raise UnpicklingError
  end.

(** "Saving JSON to a File". *)
Definition json_dump_example (d : data) : M unit :=
  file <- open_write "data.json";;
  file_write file (json_dumps d).

(** "Loading JSON". *)
Definition json_load_example : M unit :=
  file <- open_read "data.json";;
  text <- file_read file;;
  match json_loads text with
  | Some loaded_json => print (repr_data loaded_json)
  | None => raise JSONDecodeError
  end.

(** core-concepts/10_list-comprehensions-and-lambda-functions.md,
    "File Handling in OOP": [FileManager]. *)
Definition FileManager_read_file (filename : string) : M string :=
  try_except
    (file <- open_read filename;; file_read file)
    is_FileNotFoundError
    (fun _ => ret "File not found.").

Definition FileManager_write_file (filename content : string) : M unit :=
  file <- open_write filename;;
  file_write file content.

Definition FileManager_example : M unit :=
  let manager := "data.txt" in
  _ <- FileManager_write_file manager "Hello OOP!";;
  s <- FileManager_read_file manager;;
  print s.

(** core-concepts/context-managers.md, "File Handling". *)
Definition with_open_example : M unit :=
  file <- open_read "data.txt";;
  _ <- file_read file;;
  ret tt.

(** docs/core-concepts/exception-handling.md, "The finally Block": when
    [open] raises, the name [file] is not bound in the [finally]
    clause. *)
Definition finally_example : M unit :=
  file <- try_except
            (file <- open_read "data.txt";;
             _ <- file_read file;;
             ret (Some file))
            is_FileNotFoundError
            (fun _ => _ <- print "File not found.";; ret None);;
  match file with
  | Some _ => ret tt
  | None => raise NameError
  end.

(** core-concepts/context-managers.md, Challenge 2: [temporary_file],
    entered by [with] around [body]. *)
Definition temporary_file {A} (name : string) (body : string -> M A) : M A :=
  temp <- NamedTemporaryFile name;;
  try_finally (body temp) (os_remove temp).

Definition temporary_file_example (name : string) : M unit :=
  temporary_file name
    (fun filename => print ("Temporary file created: " +:+ filename)).

End Examples.

Arguments pickle_dump_example {data} _ _.
Arguments pickle_load_example {data} _ _.
Arguments json_dump_example {data} _ _.
Arguments json_load_example {data} _ _.

(** The examples that name data.txt, data.json or data.pkl. *)
Inductive data_file_example : M unit -> Prop :=
| ex_pickle_dump {data} (dumps : data -> string) (d : data) :
    data_file_example (pickle_dump_example dumps d)
| ex_pickle_load {data} (loads : string -> option data) (repr : data -> string) :
    data_file_example (pickle_load_example loads repr)
| ex_json_dump {data} (dumps : data -> string) (d : data) :
    data_file_example (json_dump_example dumps d)
| ex_json_load {data} (loads : string -> option data) (repr : data -> string) :
    data_file_example (json_load_example loads repr)
| ex_FileManager : data_file_example FileManager_example
| ex_with_open : data_file_example with_open_example
| ex_finally : data_file_example finally_example.

(** Those, and the one example that removes a file. *)
Inductive tutorial_example : M unit -> Prop :=
| ex_data_file (c : M unit) : data_file_example c -> tutorial_example c
| ex_temporary_file (name : string) :
    tutorial_example (temporary_file_example name).

Definition scratch (path : string) : Prop :=
  path = "data.txt" \/ path = "data.json" \/ path = "data.pkl".

(** An example that leaves no scratch file behind that was not there
    when it started. *)
Definition leaves_no_scratch_file (c : M unit) : Prop :=
  forall (w : world unit) (path : string),
    scratch path -> files w !! path = None -> files (c w).2 !! path = None.

(** The claim that every scratch file is deleted by the example that
    creates it. *)
Definition every_example_cleans_up : Prop :=
  forall c, tutorial_example c -> leaves_no_scratch_file c.

(** A working directory that holds one unrelated file. *)
Definition notes_only : world unit :=
  World ∅ "" {[ "notes.txt" := "remember the milk" ]}.

End ScratchFiles.

(** ** Loops over the notebook's methods *)

Module NotebookLoops.
Import Py Notebook.

(** [for new_age in ages: user.set_age(new_age)] *)
Fixpoint set_ages (user : loc) (ages : list Z) : M unit :=
  match ages with
  | [] => ret tt
  | new_age :: rest => _ <- User_set_age user new_age;; set_ages user rest
  end.

(** The notebook's session after [member1.borrow_book(user1)]. *)
Definition member_borrowed_a_user : world pyobj :=
  run_actions [Invoke (Call_borrow_book 7%nat 1%nat)] notebook_session.

End NotebookLoops.

(** ** core-concepts/10_list-comprehensions-and-lambda-functions.md, the
    file-handling lesson: its practice challenges *)

Module FileHandling.
Import Py ScratchFiles.

Section TextMode.
(** What the system decides when these functions open and use a file in
    text mode:
    - [refusal path] is the exception with which [open(path, 'w')] and
      [open(path, 'a')] refuse [path], when they do: FileNotFoundError
      for an empty path and for a path in a directory that does not
      exist;
    - [decode bytes] is the text that [read()] returns for a file that
      holds [bytes], in which "\r\n" and "\r" have become "\n", or the
      exception of the decoder (UnicodeDecodeError) where the bytes are
      no text;
    - [encode text] is what [write(text)] puts in the file, or the
      exception of the encoder. *)
Variable refusal : string -> option pyexn.
Variable decode : string -> pyexn + string.
Variable encode : string -> pyexn + string.

(** [open(path, 'w')]: creates or truncates. *)
Definition text_open_write (path : string) : M string :=
  match refusal path with
  | Some e => raise e
  | None => open_write path
  end.

(** [open(path, 'a')]: creates the file when it is missing and keeps what
    it holds; what is written goes to the end. *)
Definition text_open_append (path : string) : M string :=
  match refusal path with
  | Some e => raise e
  | None =>
      fs <- get_files;;
      _ <- set_files (<[path := default "" (fs !! path)]> fs);;
      ret path
  end.

(** [file.read()] *)
Definition text_read (file : string) : M string :=
  bytes <- file_read file;;
  match decode bytes with
  | inl e => raise e
  | inr text => ret text
  end.

(** [file.write(content)] *)
Definition text_write (file content : string) : M unit :=
  match encode content with
  | inl e => raise e
  | inr bytes => file_write file bytes
  end.

(** [file.writelines(lines)]: the strings one after the other, with
    nothing put between them. *)
Fixpoint text_writelines (file : string) (lines : list string) : M unit :=
  match lines with
  | [] => ret tt
  | line :: rest => _ <- text_write file line;; text_writelines file rest
  end.

(** Challenge 1. *)
Definition copy_file (source destination : string) : M unit :=
  content <- (src <- open_read source;; text_read src);;
  dest <- text_open_write destination;;
  text_write dest content.

(** Challenge 2. *)
Definition append_lines (filename : string) (lines : list string) : M unit :=
  file <- text_open_append filename;;
  text_writelines file lines.

End TextMode.

(** A working directory without subdirectories: [open] refuses to create
    an empty path and a path into a directory. *)
Definition flat_directory (path : string) : option pyexn :=
  if bool_decide (path = "") || contains "/" path
  then Some (FileNotFoundError path)
  else None.

(** Text as ASCII bytes: a byte above 127 is refused (UnicodeDecodeError
    and UnicodeEncodeError are ValueErrors; their messages, which go on
    to name the byte and its position, are cut short here), and reading
    turns "\r\n" and "\r" into "\n". *)
Definition is_ascii (s : string) : bool :=
  forallb (fun c => (nat_of_ascii c <? 128)%nat) (list_ascii_of_string s).

Fixpoint universal_newlines (s : string) : string :=
  match s with
  | EmptyString => EmptyString
  | String c rest =>
      if Ascii.eqb c "013" then
        String "010"
          match rest with
          | String c' rest' =>
              if Ascii.eqb c' "010" then universal_newlines rest'
              else universal_newlines rest
          | EmptyString => EmptyString
          end
      else String c (universal_newlines rest)
  end.

Definition ascii_decode (bytes : string) : pyexn + string :=
  if is_ascii bytes then inr (universal_newlines bytes)
  else inl (ValueError "'ascii' codec can't decode bytes").

Definition ascii_encode (text : string) : pyexn + string :=
  if is_ascii text then inr text
  else inl (ValueError "'ascii' codec can't encode characters").

(** A directory with a source file and a log. *)
Definition source_and_log : world unit :=
  World ∅ ""
    (<["source.txt" := "first line"]> (<["log.txt" := "Log entry 0" +:+ nl]> ∅)).

(** A directory with a file that came from another system and a file
    that is no text. *)
Definition crlf_and_binary : world unit :=
  World ∅ ""
    (<["dos.txt" := String "a" (String "013" (String "010" "b"))]>
       (<["image.bin" := String "255" (String "254" "")]> ∅)).

End FileHandling.

(** ** core-concepts/context-managers.md: the [with] statement and the
    lesson's context managers *)

Module ContextManagers.
Import Py.

Section With.
Context {O : Type}.

(** [with mgr as v: body], for a manager given by its [__enter__] and
    [__exit__]: [__exit__] is told the exception the body raised, if any,
    and a true result suppresses it; when [__enter__] raises, neither the
    body nor [__exit__] runs. *)
Definition with_ {A} (enter : Py O A) (exit_ : option pyexn -> Py O bool)
    (body : A -> Py O unit) : Py O unit :=
  v <- enter;;
  fun w =>
    match body v w with
    | (inr _, w') => (_ <- exit_ None;; ret tt) w'
    | (inl e, w') =>
        (suppress <- exit_ (Some e);; if suppress then ret tt else raise e) w'
    end.

(** The [__exit__] that [@contextmanager] gives a generator whose [yield]
    stands in no [try]: after a body that returned, the rest of the
    generator runs; an exception of the body is thrown in at the [yield],
    leaves the generator at once, and is raised again. *)
Definition generator_exit (after : Py O unit) (exc : option pyexn) : Py O bool :=
  match exc with
  | None => _ <- after;; ret false
  | Some _ => ret false
  end.

End With.

(** The lesson's manager objects, and open files: a file object knows its
    path, whether it has been closed, and whether it has been read to its
    end. *)
Inductive pyobj :=
| CustomContextObj
| SuppressExceptionObj
| FileManagerObj (filename : string) (file : option loc)
| FileObj (path : string) (closed at_end : bool).

Abbreviation M := (Py pyobj).

(** *** Section 2: CustomContext *)

Definition CustomContext : M loc := alloc CustomContextObj.

Definition CustomContext__enter__ (self : loc) : M loc :=
  _ <- print "Entering context";;
  ret self.

Definition CustomContext__exit__ (self : loc) (exc : option pyexn) : M bool :=
  _ <- print "Exiting context";;
  ret false.

(** [with CustomContext() as context: body] *)
Definition with_CustomContext (body : loc -> M unit) : M unit :=
  mgr <- CustomContext;;
  with_ (CustomContext__enter__ mgr) (CustomContext__exit__ mgr) body.

(** *** Section 3: custom_context, the generator form *)

(** [with custom_context(): body] *)
Definition with_custom_context (body : M unit) : M unit :=
  with_ (print "Entering context")
        (generator_exit (print "Exiting context"))
        (fun _ => body).

(** *** Section 5: SuppressException *)

Section Suppress.
(** [str(exc_value)] for an exception. *)
Variable str_exn : pyexn -> string.

Definition SuppressException : M loc := alloc SuppressExceptionObj.

Definition SuppressException__enter__ (self : loc) : M unit :=
  print "Entering context".

Definition SuppressException__exit__ (self : loc) (exc : option pyexn)
    : M bool :=
  _ <- print ("Exception suppressed: "
              +:+ match exc with Some e => str_exn e | None => "None" end);;
  ret true.

(** [with SuppressException(): body] *)
Definition with_SuppressException (body : M unit) : M unit :=
  mgr <- SuppressException;;
  with_ (SuppressException__enter__ mgr) (SuppressException__exit__ mgr)
        (fun _ => body).

End Suppress.

(** [str] of the exceptions that carry their message, and of the one
    [open] raises. *)
Definition str_of_message (e : pyexn) : string :=
  match e with
  | ValueError msg | InsufficientFundsError msg => msg
  | FileNotFoundError path =>
      "[Errno 2] No such file or directory: " +:+ repr_str path
  | _ => ""
  end.

(** *** Section 6: FileManager as a context manager *)


(** [file.read()]: everything up to the end of the file, so nothing the
    second time. *)
Definition file_read (file : loc) : M string :=
  o <- deref file;;
  match o with
  | FileObj path closed at_end =>
      if closed then raise (ValueError "I/O operation on closed file.")
      else if at_end then ret ""
      else
        fs <- get_files;;
        _ <- store file (FileObj path false true);;
        ret (default "" (fs !! path))
  | _ => raise AttributeError
  end.








End ContextManagers.

(** ** exercises/core-concepts-exercises.ipynb: the logging decorator, the
    JSON helpers and the iterator *)

Module CoreConcepts.
Import Py ScratchFiles FileHandling.

(** The text on stdout after printing [lines], one [print] each. *)
Definition after_prints (out : string) (lines : list string) : string :=
  fold_left (fun o line => o +:+ line +:+ nl) lines out.

(** *** Step 2: logger *)

(** [logger(func)] called: [name] is [func.__name__], [func] the call of
    the decorated function on the arguments given. *)
Definition logger {O A} (name : string) (func : Py O A) : Py O A :=
  _ <- print ("Executing " +:+ name +:+ "...");;
  result <- func;;
  _ <- print ("Execution of " +:+ name +:+ " completed." +:+ nl);;
  ret result.

(** *** Steps 3 and 4: read_json and write_json *)

(** The data [json] reads and writes (numbers with a fraction left out). *)
#[warnings="-register-all"]
Inductive json :=
| JNull
| JBool (b : bool)
| JInt (n : Z)
| JStr (s : string)
| JList (items : list json)
| JDict (entries : list (string * json)).

Definition sample_data : json :=
  JList
    [ JDict [("name", JStr "Alice"); ("age", JInt 25); ("country", JStr "USA")];
      JDict [("name", JStr "Bob"); ("age", JInt 30); ("country", JStr "UK")] ].

Definition handled_by_read_json (e : pyexn) : bool :=
  match e with
  | FileNotFoundError _ | JSONDecodeError => true
  | _ => false
  end.

Section Json.
(** [json.dumps(data, indent=4)] and [json.loads], which refuses a text
    that is not JSON, and what the system decides about the file (see
    [FileHandling]). *)
Variable json_dumps : json -> string.
Variable json_loads : string -> option json.
Variable refusal : string -> option pyexn.
Variable decode : string -> pyexn + string.
Variable encode : string -> pyexn + string.

Definition write_json (file_path : string) (data : json) : M unit :=
  logger "write_json"
    (file <- text_open_write refusal file_path;;
     text_write encode file (json_dumps data)).

Definition read_json (file_path : string) : M json :=
  logger "read_json"
    (try_except
       (file <- open_read file_path;;
        text <- text_read decode file;;
        match json_loads text with
        | Some data => ret data
        | None => raise JSONDecodeError
        end)
       handled_by_read_json
       (fun e =>
          match e with
          | FileNotFoundError _ =>
              _ <- print "File not found. Creating a new file with sample data.";;
              _ <- write_json file_path sample_data;;
              ret sample_data
          | _ =>
              _ <- print "Error decoding JSON file.";;
              ret (JList [])
          end)).

End Json.

(** [json.dumps] and [json.loads] on the empty list only. *)
Definition dumps_empty_list (data : json) : string := "[]".

Definition loads_empty_list (text : string) : option json :=
  if String.eqb text "[]" then Some (JList []) else None.

(** *** Step 6: UserIterator *)

Section Iterator.
(** The users are dictionaries; the iterator hands them on as they are. *)
Context {U : Type}.

Record UserIteratorObj := MkUserIterator { users : list U; index : nat }.

Definition UserIterator (users : list U) : UserIteratorObj :=
  MkUserIterator users 0.

(** [__next__]: [None] stands for StopIteration.  The index never passes
    a bounds check without being in range, so the subscript cannot fail. *)
Definition UserIterator__next__ (self : UserIteratorObj)
    : option U * UserIteratorObj :=
  if (length (users self) <=? index self)%nat then (None, self)
  else
    match users self !! index self with
    | Some user => (Some user, MkUserIterator (users self) (index self + 1))
    | None => (None, self)
    end.

(** [for user in iterator]: [__iter__] returns the iterator itself, and
    [__next__] is called until it raises StopIteration; the result is what
    the loop saw and the iterator it leaves.  [fuel] bounds the number of
    rounds. *)
Fixpoint for_in (fuel : nat) (it : UserIteratorObj)
    : list U * UserIteratorObj :=
  match fuel with
  | O => ([], it)
  | S fuel' =>
      match UserIterator__next__ it with
      | (Some user, it') =>
          let rest := for_in fuel' it' in (user :: rest.1, rest.2)
      | (None, it') => ([], it')
      end
  end.

End Iterator.

Arguments UserIteratorObj U : clear implicits.

End CoreConcepts.

(** * Properties *)

Module NotebookFacts.
Import Py Notebook.

Lemma deref_live {O} (w : world O) (l : loc) (o : O) :
  heap w !! l = Some o -> deref l w = (inr o, w).
Proof. intros H. by rw /deref H. Qed.

Lemma fresh_not_live {O} (w : world O) : heap w !! fresh (dom (heap w)) = None.
Proof. apply not_elem_of_dom, is_fresh. Qed.

Lemma live_not_fresh {O} (w : world O) (l : loc) (o : O) :
  heap w !! l = Some o -> l <> fresh (dom (heap w)).
Proof. intros H ->. by rw fresh_not_live in H. Qed.

Lemma Book_get_info_run (w : world pyobj) (self : loc) (o : pyobj) (b : book) :
  heap w !! self = Some o -> book_attrs o = Some b ->
  Book_get_info self w =
    (inr (title b +:+ " by " +:+ author b +:+ ", published in "
          +:+ str_int (year b)), w).
Proof. intros H Hb. by rw /Book_get_info /bind (deref_live _ _ _ H) Hb. Qed.

(** C8. An EBook's [get_info] is the string [Book.get_info] gives for the
    same title, author and year, followed by the file size; an
    AudioBook's is that string followed by the duration. *)
Theorem subclass_get_info_extends_parent
    (w : world pyobj) (bk : book) :
  (forall (e : loc) (file_size : Z),
      heap w !! e = Some (EBookObj bk file_size) ->
      exists s,
        Book_get_info e w = (inr s, w) /\
        (forall b, heap w !! b = Some (BookObj bk) -> get_info b w = (inr s, w)) /\
        get_info e w =
          (inr (s +:+ " (File size: " +:+ str_int file_size +:+ "MB)"), w)) /\
  (forall (a : loc) (duration : Z),
      heap w !! a = Some (AudioBookObj bk duration) ->
      exists s,
        Book_get_info a w = (inr s, w) /\
        (forall b, heap w !! b = Some (BookObj bk) -> get_info b w = (inr s, w)) /\
        get_info a w =
          (inr (s +:+ " (Duration: " +:+ str_int duration +:+ " min)"), w)).
Proof.
  split; intros x n Hx; eexists; (split; [|split]).
  - by apply (Book_get_info_run w x _ bk Hx).
  - intros b Hb.
    rw /get_info /bind (deref_live _ _ _ Hb).
    by apply (Book_get_info_run w b _ bk Hb).
  - rw /get_info /bind (deref_live _ _ _ Hx) /EBook_get_info /bind.
    by rw (Book_get_info_run w x _ bk Hx) // (deref_live _ _ _ Hx).
  - by apply (Book_get_info_run w x _ bk Hx).
  - intros b Hb.
    rw /get_info /bind (deref_live _ _ _ Hb).
    by apply (Book_get_info_run w b _ bk Hb).
  - rw /get_info /bind (deref_live _ _ _ Hx) /AudioBook_get_info /bind.
    by rw (Book_get_info_run w x _ bk Hx) // (deref_live _ _ _ Hx).
Qed.

Lemma alloc_run {O} (w : world O) (o : O) :
  alloc o w =
    (inr (fresh (dom (heap w))),
     World (<[fresh (dom (heap w)) := o]> (heap w)) (stdout w) (files w)).
Proof. done. Qed.

Lemma Rating__str__run (w : world pyobj) (self : loc) (r : Z) :
  heap w !! self = Some (RatingObj r) ->
  Rating__str__ self w = (inr ("Rating: " +:+ str_int r +:+ "/5"), w).
Proof. intros H. by rw /Rating__str__ /bind (deref_live _ _ _ H). Qed.

Lemma Rating__add__run (w : world pyobj) (a b : loc) (ra rb : Z) :
  heap w !! a = Some (RatingObj ra) ->
  heap w !! b = Some (RatingObj rb) ->
  Rating__add__ a b w =
    (inr (fresh (dom (heap w))),
     World (<[fresh (dom (heap w)) := RatingObj (ra + rb)]> (heap w))
           (stdout w) (files w)).
Proof.
  intros Ha Hb.
  by rw /Rating__add__ /bind (deref_live _ _ _ Ha) (deref_live _ _ _ Hb).
Qed.

(** C2. [a + b] on two Ratings returns a new Rating holding the sum of the
    two ratings, leaves [a], [b] and every other object as they were, and
    [str] of the result shows the sum itself over 5; the usage cell prints
    "Rating: 9/5". *)
Theorem Rating_add_sums_without_clamping
    (w : world pyobj) (a b : loc) (ra rb : Z) :
  heap w !! a = Some (RatingObj ra) ->
  heap w !! b = Some (RatingObj rb) ->
  let c := fresh (dom (heap w)) in
  let w' := World (<[c := RatingObj (ra + rb)]> (heap w)) (stdout w) (files w) in
  Rating__add__ a b w = (inr c, w') /\
  heap w !! c = None /\
  heap w' !! c = Some (RatingObj (ra + rb)) /\
  heap w' !! a = Some (RatingObj ra) /\
  heap w' !! b = Some (RatingObj rb) /\
  (forall l o, heap w !! l = Some o -> heap w' !! l = Some o) /\
  Rating__str__ c w' = (inr ("Rating: " +:+ str_int (ra + rb) +:+ "/5"), w') /\
  (forall w0 : world pyobj,
      stdout (rating_usage w0).2 = stdout w0 +:+ "Rating: 9/5" +:+ nl).
Proof.
  intros Ha Hb c w'.
  assert (Hold : forall l o, heap w !! l = Some o -> heap w' !! l = Some o).
  { intros l o Hl. rw /w' /= lookup_insert_ne //.
    by apply not_eq_sym, (live_not_fresh w l o). }
  split; [by apply Rating__add__run|].
  split; [by apply fresh_not_live|].
  split; [by rw /w' /= lookup_insert_eq|].
  split; [by apply Hold|]. split; [by apply Hold|]. split; [done|].
  split; [by apply Rating__str__run; rw /w' /= lookup_insert_eq|].
  intros w0. rw /rating_usage /bind /Rating !alloc_run.
  set (w1 := World _ _ _). set (w2 := World _ _ _).
  assert (H2 : heap w2 !! fresh (dom (heap w1)) = Some (RatingObj 5)).
  { by rw /w2 /= lookup_insert_eq. }
  assert (H1 : heap w2 !! fresh (dom (heap w0)) = Some (RatingObj 4)).
  { rw /w2 /= lookup_insert_ne.
    - apply not_eq_sym, (live_not_fresh w1 _ (RatingObj 4)).
      by rw /w1 /= lookup_insert_eq.
    - by rw /w1 /= lookup_insert_eq. }
  rw (Rating__add__run w2 _ _ 4 5 H1 H2).
  rw (Rating__str__run _ _ (4 + 5)); [by rw /= lookup_insert_eq|].
  done.
Qed.

Lemma list_append_run (w : world pyobj) (l x : loc) (items : list loc) :
  heap w !! l = Some (ListObj items) ->
  list_append l x w =
    (inr tt, World (<[l := ListObj (items ++ [x])]> (heap w)) (stdout w) (files w)).
Proof. intros H. by rw /list_append /bind (deref_live _ _ _ H). Qed.

Lemma list_len_run (w : world pyobj) (l : loc) (items : list loc) :
  heap w !! l = Some (ListObj items) ->
  list_len l w = (inr (Z.of_nat (length items)), w).
Proof. intros H. by rw /list_len /bind (deref_live _ _ _ H). Qed.

Lemma Library_add_book_run (w : world pyobj) (lib lb b : loc)
    (name : string) (items : list loc) :
  heap w !! lib = Some (LibraryObj name lb) ->
  heap w !! lb = Some (ListObj items) ->
  Library_add_book lib b w =
    (inr tt, World (<[lb := ListObj (items ++ [b])]> (heap w)) (stdout w) (files w)).
Proof.
  intros H Hl. rw /Library_add_book /bind (deref_live _ _ _ H).
  by apply list_append_run.
Qed.

Lemma Library__len__run (w : world pyobj) (lib lb : loc)
    (name : string) (items : list loc) :
  heap w !! lib = Some (LibraryObj name lb) ->
  heap w !! lb = Some (ListObj items) ->
  Library__len__ lib w = (inr (Z.of_nat (length items)), w).
Proof.
  intros H Hl. rw /Library__len__ /bind (deref_live _ _ _ H).
  by apply list_len_run.
Qed.

Lemma Library__str__run (w : world pyobj) (lib lb : loc)
    (name : string) (items : list loc) :
  heap w !! lib = Some (LibraryObj name lb) ->
  heap w !! lb = Some (ListObj items) ->
  Library__str__ lib w =
    (inr ("Library: " +:+ name +:+ " with "
          +:+ str_int (Z.of_nat (length items)) +:+ " books"), w).
Proof.
  intros H Hl. rw /Library__str__ /bind (deref_live _ _ _ H).
  by rw (list_len_run _ _ _ Hl).
Qed.

Lemma Library_run (w : world pyobj) (name : string) :
  let lb := fresh (dom (heap w)) in
  let lib := fresh (dom (<[lb := ListObj []]> (heap w))) in
  Library name w =
    (inr lib,
     World (<[lib := LibraryObj name lb]> (<[lb := ListObj []]> (heap w)))
           (stdout w) (files w)) /\
  lib <> lb.
Proof.
  split; [done|].
  intros Heq.
  pose proof (is_fresh (dom (<[fresh (dom (heap w)) := ListObj []]> (heap w)))) as Hf.
  rw Heq in Hf. apply Hf, elem_of_dom. by rw lookup_insert_eq.
Qed.

Lemma add_books_run (bs : list loc) :
  forall (w : world pyobj) (lib lb : loc) (name : string) (items : list loc),
    heap w !! lib = Some (LibraryObj name lb) ->
    heap w !! lb = Some (ListObj items) ->
    exists w',
      add_books lib bs w = (inr tt, w') /\
      heap w' !! lib = Some (LibraryObj name lb) /\
      heap w' !! lb = Some (ListObj (items ++ bs)) /\
      stdout w' = stdout w.
Proof.
  induction bs as [|b bs IH]; intros w lib lb name items Hlib Hlb.
  - exists w. by rw app_nil_r.
  - assert (lb <> lib) by (intros ->; congruence).
    rw /= /bind (Library_add_book_run _ _ _ _ _ _ Hlib Hlb).
    set (w1 := World _ _ _).
    destruct (IH w1 lib lb name (items ++ [b])) as (w' & Hrun & Hl & Hb & Ho).
    + by rw /w1 /= lookup_insert_ne.
    + by rw /w1 /= lookup_insert_eq.
    + exists w'. by rw -app_assoc in Hb.
Qed.

(** C5. A Library starts with an empty books list; [add_book] appends;
    after adding the books [bs] to a new Library, [len] is the number of
    books added and [str] shows that number; and whenever [len] returns
    [n], [str] shows the same [n]. *)
Theorem Library_len_and_str_agree :
  (forall (w : world pyobj) (name : string),
      exists lib lb w1,
        Library name w = (inr lib, w1) /\
        heap w !! lib = None /\ heap w !! lb = None /\
        heap w1 !! lib = Some (LibraryObj name lb) /\
        heap w1 !! lb = Some (ListObj [])) /\
  (forall (w : world pyobj) (lib lb b : loc) (name : string) (items : list loc),
      heap w !! lib = Some (LibraryObj name lb) ->
      heap w !! lb = Some (ListObj items) ->
      Library_add_book lib b w =
        (inr tt,
         World (<[lb := ListObj (items ++ [b])]> (heap w)) (stdout w) (files w))) /\
  (forall (w : world pyobj) (name : string) (bs : list loc),
      exists lib w2,
        (lib <- Library name;; _ <- add_books lib bs;; ret lib) w = (inr lib, w2) /\
        Library__len__ lib w2 = (inr (Z.of_nat (length bs)), w2) /\
        Library__str__ lib w2 =
          (inr ("Library: " +:+ name +:+ " with "
                +:+ str_int (Z.of_nat (length bs)) +:+ " books"), w2)) /\
  (forall (w : world pyobj) (lib : loc) (n : Z),
      (Library__len__ lib w).1 = inr n ->
      exists name,
        Library__str__ lib w =
          (inr ("Library: " +:+ name +:+ " with " +:+ str_int n +:+ " books"), w)).
Proof.
  split; [|split; [|split]].
  - intros w name. destruct (Library_run w name) as [Hrun Hne].
    eexists _, _, _. split; [exact Hrun|]. simpl.
    split; [|split; [by apply fresh_not_live|split]].
    + set (lb := fresh (dom (heap w))).
      pose proof (fresh_not_live (World (<[lb := ListObj []]> (heap w)) "" ∅)) as Hf.
      simpl in Hf. apply lookup_insert_None in Hf. by destruct Hf.
    + by rw lookup_insert_eq.
    + by rw lookup_insert_ne // lookup_insert_eq.
  - intros. by eapply Library_add_book_run.
  - intros w name bs. destruct (Library_run w name) as [Hrun Hne].
    rw /bind Hrun. set (w1 := World _ _ _).
    set (lb := fresh (dom (heap w))) in *.
    set (lib := fresh (dom (<[lb := ListObj []]> (heap w)))) in *.
    destruct (add_books_run bs w1 lib lb name []) as (w2 & Hadd & Hlib & Hlb & _).
    + by rw /w1 /= lookup_insert_eq.
    + by rw /w1 /= lookup_insert_ne // lookup_insert_eq.
    + rw Hadd. eexists _, w2. split; [done|].
      split; [by eapply Library__len__run|by eapply Library__str__run].
  - intros w lib n. rw /Library__len__ /Library__str__ /bind /deref.
    destruct (heap w !! lib) as [[]|] eqn:Hlib; simpl; try done.
    rw /list_len /bind /deref.
    destruct (heap w !! books) as [[]|] eqn:Hlb; simpl; try done.
    intros [= <-]. by eexists.
Qed.

Lemma User_run (w : world pyobj) (name : string) (age : Z) :
  User name age w =
    (inr (fresh (dom (heap w))),
     World (<[fresh (dom (heap w)) := UserObj name age]> (heap w))
           (stdout w) (files w)).
Proof. done. Qed.

(** C9. [set_age] with a positive age stores it; with a non-positive age
    it only prints "Invalid age!" and returns, the heap being what it was;
    [User(name, age)] checks nothing, so it builds a user with an age that
    [set_age] then refuses. *)
Theorem set_age_rejects_without_change_but_constructor_accepts :
  (forall (w : world pyobj) (u : loc) (name : string) (age new_age : Z),
      heap w !! u = Some (UserObj name age) ->
      (0 < new_age ->
       User_set_age u new_age w =
         (inr tt,
          World (<[u := UserObj name new_age]> (heap w)) (stdout w) (files w))) /\
      (new_age <= 0 ->
       User_set_age u new_age w =
         (inr tt,
          World (heap w) (stdout w +:+ "Invalid age!" +:+ nl) (files w)))) /\
  (forall (w : world pyobj) (name : string) (age : Z),
      exists u w',
        User name age w = (inr u, w') /\
        heap w' !! u = Some (UserObj name age) /\
        (age <= 0 ->
         User_set_age u age w' =
           (inr tt,
            World (heap w') (stdout w' +:+ "Invalid age!" +:+ nl) (files w')))).
Proof.
  assert (Hset : forall (w : world pyobj) u name age new_age,
    heap w !! u = Some (UserObj name age) ->
    (0 < new_age ->
     User_set_age u new_age w =
       (inr tt,
        World (<[u := UserObj name new_age]> (heap w)) (stdout w) (files w))) /\
    (new_age <= 0 ->
     User_set_age u new_age w =
       (inr tt,
        World (heap w) (stdout w +:+ "Invalid age!" +:+ nl) (files w)))).
  { intros w u name age new_age Hu.
    rw /User_set_age /bind (deref_live _ _ _ Hu).
    split; intros Hn.
    - by rw (proj2 (Z.ltb_lt 0 new_age) Hn).
    - by rw (proj2 (Z.ltb_ge 0 new_age) Hn). }
  split; [exact Hset|].
  intros w name age. eexists _, _. split; [apply User_run|].
  assert (Hu : heap (User name age w).2 !! fresh (dom (heap w))
               = Some (UserObj name age)).
  { by rw /= lookup_insert_eq. }
  split; [exact Hu|].
  intros Hage. by apply (proj2 (Hset _ _ _ _ age Hu)).
Qed.

(** *** Methods that only read *)

Lemma readonly_ret {O A} (a : A) : readonly (O := O) (ret a).
Proof. done. Qed.

Lemma readonly_raise {O A} (e : pyexn) : readonly (O := O) (A := A) (raise e).
Proof. done. Qed.

Lemma readonly_deref {O} (l : loc) : readonly (O := O) (deref l).
Proof. intros w. rw /deref. by destruct (heap w !! l). Qed.

Lemma readonly_bind {O A B} (c : Py O A) (k : A -> Py O B) :
  readonly c -> (forall a, readonly (k a)) -> readonly (bind c k).
Proof.
  intros Hc Hk w. rw /bind. specialize (Hc w).
  destruct (c w) as [[e|a] w']; simpl in *; subst; [done|apply Hk].
Qed.

Ltac readonly_steps :=
  repeat first
    [ apply readonly_ret | apply readonly_raise | apply readonly_deref
    | apply readonly_bind; [|intros ?]
    | match goal with
      | |- readonly (match ?x with _ => _ end) => destruct x
      end ].

Lemma readonly_list_len (l : loc) : readonly (list_len l).
Proof. rw /list_len. readonly_steps. Qed.

Lemma readonly_Book_get_info (self : loc) : readonly (Book_get_info self).
Proof. rw /Book_get_info. readonly_steps. Qed.

Lemma readonly_get_info (self : loc) : readonly (get_info self).
Proof.
  rw /get_info /EBook_get_info /AudioBook_get_info.
  readonly_steps; try apply readonly_Book_get_info; readonly_steps.
Qed.

Lemma readonly_comprehension {A} (f : loc -> M A) (xs : list loc) :
  (forall x, readonly (f x)) -> readonly (comprehension f xs).
Proof. intros Hf. induction xs; simpl; readonly_steps; auto. Qed.

Lemma readonly_User_get_user_info (self : loc) :
  readonly (User_get_user_info self).
Proof. rw /User_get_user_info. readonly_steps. Qed.

Lemma readonly_Library__len__ (self : loc) : readonly (Library__len__ self).
Proof. rw /Library__len__. readonly_steps; apply readonly_list_len. Qed.

Lemma readonly_Library__str__ (self : loc) : readonly (Library__str__ self).
Proof.
  rw /Library__str__. readonly_steps; try apply readonly_list_len.
Qed.

Lemma readonly_get_borrowed_books (self : loc) :
  readonly (LibraryMember_get_borrowed_books self).
Proof.
  rw /LibraryMember_get_borrowed_books. readonly_steps.
  all: apply readonly_comprehension, readonly_get_info.
Qed.

Lemma readonly_Rating__str__ (self : loc) : readonly (Rating__str__ self).
Proof. rw /Rating__str__. readonly_steps. Qed.

Lemma discard_world {A} (c : M A) (w : world pyobj) :
  (discard c w).2 = (c w).2.
Proof. rw /discard /bind. by destruct (c w) as [[e|a] w']. Qed.

Lemma Rating__add__heap (self other : loc) (w : world pyobj) :
  heap (Rating__add__ self other w).2 = heap w \/
  exists r, heap (Rating__add__ self other w).2
            = <[fresh (dom (heap w)) := RatingObj r]> (heap w).
Proof.
  rw /Rating__add__ /bind /deref.
  destruct (heap w !! self) as [[]|]; simpl; auto.
  destruct (heap w !! other) as [[]|]; simpl; eauto.
Qed.

Lemma User_set_age_invalid (self : loc) (new_age : Z) (w : world pyobj) :
  (0 <? new_age) = false -> heap (User_set_age self new_age w).2 = heap w.
Proof.
  intros Hn. rw /User_set_age /bind /deref Hn.
  by destruct (heap w !! self) as [[]|].
Qed.

Lemma invoke_keeps_objects (c : call) (w : world pyobj) (l : loc) (o : pyobj) :
  mutates c = false ->
  heap w !! l = Some o -> heap (invoke c w).2 !! l = Some o.
Proof.
  intros Hc Hl.
  destruct c; simpl in Hc; try discriminate; simpl; rw ?discard_world.
  - by rw readonly_get_info.
  - by rw readonly_User_get_user_info.
  - by rw User_set_age_invalid.
  - by rw readonly_Library__str__.
  - by rw readonly_Library__len__.
  - by rw readonly_get_borrowed_books.
  - destruct (Rating__add__heap self other w) as [-> | [r ->]]; [done|].
    rw lookup_insert_ne //. by apply not_eq_sym, (live_not_fresh w l o).
  - by rw readonly_Rating__str__.
Qed.

Lemma LibraryMember_borrow_book_run (w : world pyobj) (m u lb b : loc)
    (items : list loc) :
  heap w !! m = Some (LibraryMemberObj u lb) ->
  heap w !! lb = Some (ListObj items) ->
  LibraryMember_borrow_book m b w =
    (inr tt, World (<[lb := ListObj (items ++ [b])]> (heap w)) (stdout w) (files w)).
Proof.
  intros H Hl. rw /LibraryMember_borrow_book /bind (deref_live _ _ _ H).
  by apply list_append_run.
Qed.

(** C1, as the code has it.  The calls that only read ([get_info],
    [get_user_info], [__str__], [__len__], [get_borrowed_books]),
    [Rating.__add__] (which builds a new Rating), and [set_age] with a
    non-positive age leave every existing object as it was.  [add_book]
    and [borrow_book] append to the list the object holds and [set_age]
    with a positive age reassigns the age: these change state after
    construction. *)
Theorem state_changes_only_through_mutators :
  (forall (c : call) (w : world pyobj) (l : loc) (o : pyobj),
      mutates c = false ->
      heap w !! l = Some o -> heap (invoke c w).2 !! l = Some o) /\
  (forall (w : world pyobj) (lib lb b : loc) (name : string) (items : list loc),
      heap w !! lib = Some (LibraryObj name lb) ->
      heap w !! lb = Some (ListObj items) ->
      heap (invoke (Call_add_book lib b) w).2 !! lb
        = Some (ListObj (items ++ [b]))) /\
  (forall (w : world pyobj) (m u lb b : loc) (items : list loc),
      heap w !! m = Some (LibraryMemberObj u lb) ->
      heap w !! lb = Some (ListObj items) ->
      heap (invoke (Call_borrow_book m b) w).2 !! lb
        = Some (ListObj (items ++ [b]))) /\
  (forall (w : world pyobj) (u : loc) (name : string) (age new_age : Z),
      heap w !! u = Some (UserObj name age) ->
      0 < new_age ->
      heap (invoke (Call_set_age u new_age) w).2 !! u
        = Some (UserObj name new_age)).
Proof.
  split; [exact invoke_keeps_objects|]. split; [|split].
  - intros w lib lb b name items Hlib Hlb.
    by rw /= (Library_add_book_run _ _ _ _ _ _ Hlib Hlb) /= lookup_insert_eq.
  - intros w m u lb b items Hm Hlb.
    by rw /= (LibraryMember_borrow_book_run _ _ _ _ _ _ Hm Hlb) /= lookup_insert_eq.
  - intros w u name age new_age Hu Hn.
    rw /= /User_set_age /bind (deref_live _ _ _ Hu).
    by rw (proj2 (Z.ltb_lt 0 new_age) Hn) /= lookup_insert_eq.
Qed.

(** C1, as stated, fails: after [user1 = User("Alice", 28)], the call
    [user1.set_age(29)] changes the object. *)
Lemma set_age_changes_state : ~ no_state_change.
Proof.
  intros H.
  specialize (H (Call_set_age 0%nat 29) (User "Alice" 28 fresh_kernel).2
                0%nat (UserObj "Alice" 28) eq_refl).
  vm_compute in H. discriminate H.
Qed.

(** *** The lists are never shared *)

Lemma separated_empty : separated ∅.
Proof. repeat split; intros *; by rw lookup_empty. Qed.

(** A new object that holds no list. *)
Lemma separated_alloc (h : gmap loc pyobj) (l : loc) (o : pyobj) :
  separated h -> h !! l = None -> owned_list o = None ->
  separated (<[l := o]> h).
Proof.
  intros (Hlist & Huniq & Huser) Hl Ho. repeat split.
  - intros l1 o1 lb [[-> ->]|[Hne H1]]%lookup_insert_Some Hown; [congruence|].
    destruct (Hlist _ _ _ H1 Hown) as [items Hitems]. exists items.
    rw lookup_insert_ne //. congruence.
  - intros l1 l2 o1 o2 lb [[-> ->]|[? H1]]%lookup_insert_Some
                           [[-> ->]|[? H2]]%lookup_insert_Some; try congruence.
    eauto.
  - intros l1 u lb [[-> ->]|[? H1]]%lookup_insert_Some; [done|]. eauto.
Qed.

(** An object replaced by one of the same kind holding the same list. *)
Lemma separated_update (h : gmap loc pyobj) (l : loc) (o o' : pyobj) :
  separated h -> h !! l = Some o ->
  owned_list o' = owned_list o ->
  (forall items, o = ListObj items -> exists items', o' = ListObj items') ->
  (forall u lb, o' = LibraryMemberObj u lb -> o = LibraryMemberObj u lb) ->
  separated (<[l := o']> h).
Proof.
  intros (Hlist & Huniq & Huser) Hl Hown Hkeep Hmem. repeat split.
  - intros l1 o1 lb H1 Ho1.
    assert (exists o0, h !! l1 = Some o0 /\ owned_list o0 = Some lb)
      as (o0 & H0 & Hown0).
    { apply lookup_insert_Some in H1 as [[-> ->]|[? H1]]; [|by eauto].
      exists o. by rw -Hown. }
    destruct (Hlist _ _ _ H0 Hown0) as [items Hitems].
    destruct (decide (l = lb)) as [->|Hne].
    + rw Hl in Hitems. injection Hitems as ->.
      destruct (Hkeep _ eq_refl) as [items' ->].
      exists items'. by rw lookup_insert_eq.
    + exists items. by rw lookup_insert_ne.
  - intros l1 l2 o1 o2 lb [[-> ->]|[? H1]]%lookup_insert_Some
                           [[-> ->]|[? H2]]%lookup_insert_Some Ho1 Ho2;
      [done| | |by eauto].
    + rw Hown in Ho1. eauto.
    + rw Hown in Ho2. eauto.
  - intros l1 u lb [[-> Heq]|[? H1]]%lookup_insert_Some; [|by eauto].
    apply Hmem in Heq. subst o. eauto.
Qed.

(** A new instance holding a new, empty list. *)
Lemma separated_new_owner (h : gmap loc pyobj) (l lb : loc) (o : pyobj) :
  separated h -> h !! lb = None -> h !! l = None -> l <> lb ->
  owned_list o = Some lb ->
  (forall u lb', o = LibraryMemberObj u lb' -> u <> lb') ->
  separated (<[l := o]> (<[lb := ListObj []]> h)).
Proof.
  intros (Hlist & Huniq & Huser) Hlb Hl Hne Hown Hmem. repeat split.
  - intros l1 o1 lb1 H1 Ho1.
    apply lookup_insert_Some in H1 as [[-> ->]|[? H1]].
    + assert (lb1 = lb) as -> by congruence.
      exists []. by rw lookup_insert_ne // lookup_insert_eq.
    + apply lookup_insert_Some in H1 as [[-> <-]|[? H1]]; [done|].
      destruct (Hlist _ _ _ H1 Ho1) as [items Hitems]. exists items.
      rw !lookup_insert_ne //; congruence.
  - intros l1 l2 o1 o2 lb1 H1 H2 Ho1 Ho2.
    apply lookup_insert_Some in H1 as [[-> ->]|[? H1]];
      apply lookup_insert_Some in H2 as [[-> ->]|[? H2]]; [done| | |].
    + apply lookup_insert_Some in H2 as [[-> <-]|[? H2]]; [done|].
      destruct (Hlist _ _ _ H2 Ho2) as [items Hitems]. congruence.
    + apply lookup_insert_Some in H1 as [[-> <-]|[? H1]]; [done|].
      destruct (Hlist _ _ _ H1 Ho1) as [items Hitems]. congruence.
    + apply lookup_insert_Some in H1 as [[-> <-]|[? H1]]; [done|].
      apply lookup_insert_Some in H2 as [[-> <-]|[? H2]]; [done|]. eauto.
  - intros l1 u lb1 [[-> ->]|[? H1]]%lookup_insert_Some; [by eauto|].
    apply lookup_insert_Some in H1 as [[-> ?]|[? H1]]; [done|]. eauto.
Qed.

Lemma separated_append (w : world pyobj) (l x : loc) :
  separated (heap w) -> separated (heap (list_append l x w).2).
Proof.
  intros Hsep. rw /list_append /bind /deref.
  destruct (heap w !! l) as [o|] eqn:Hl; [|done].
  destruct o; try done. simpl.
  eapply separated_update; eauto. done.
Qed.

Lemma fresh_twice_ne (h : gmap loc pyobj) (o : pyobj) :
  h !! fresh (dom (<[fresh (dom h) := o]> h)) = None /\
  fresh (dom (<[fresh (dom h) := o]> h)) <> fresh (dom h).
Proof.
  pose proof (is_fresh (dom (<[fresh (dom h) := o]> h))) as Hf.
  apply not_elem_of_dom, lookup_insert_None in Hf as [? ?]. auto.
Qed.

Lemma perform_separated (a : action) (w : world pyobj) :
  separated (heap w) ->
  (forall l, l ∈ refs a -> is_Some (heap w !! l)) ->
  separated (heap (perform a w).2).
Proof.
  intros Hsep Hlive.
  assert (Hfresh : heap w !! fresh (dom (heap w)) = None)
    by apply fresh_not_live.
  destruct a as [c|c]; rw /perform ?discard_world.
  - destruct c; simpl; try by apply separated_alloc.
    + pose proof (fresh_twice_ne (heap w) (ListObj [])) as [? ?].
      by apply separated_new_owner.
    + pose proof (fresh_twice_ne (heap w) (ListObj [])) as [? ?].
      apply separated_new_owner; try done.
      intros u lb' [= <- <-]. destruct (Hlive user) as [o Ho]; [set_solver|].
      by apply (live_not_fresh w user o).
  - destruct c; simpl; rw ?discard_world.
    + by rw readonly_get_info.
    + by rw readonly_User_get_user_info.
    + rw /User_set_age /bind /deref.
      destruct (heap w !! self) as [o|] eqn:Hs; [|done].
      destruct o; try done. destruct (0 <? new_age); [|done]. simpl.
      eapply separated_update; eauto; done.
    + rw /Library_add_book /bind /deref.
      destruct (heap w !! self) as [o|] eqn:Hs; [|done].
      destruct o; try done. by apply separated_append.
    + by rw readonly_Library__str__.
    + by rw readonly_Library__len__.
    + rw /LibraryMember_borrow_book /bind /deref.
      destruct (heap w !! self) as [o|] eqn:Hs; [|done].
      destruct o; try done. by apply separated_append.
    + by rw readonly_get_borrowed_books.
    + destruct (Rating__add__heap self other w) as [-> | [r ->]]; [done|].
      by apply separated_alloc.
    + by rw readonly_Rating__str__.
Qed.

(** Every world a session reaches keeps the lists apart. *)
Lemma reachable_separated (w : world pyobj) :
  reachable w -> separated (heap w).
Proof.
  induction 1 as [|w a _ IH Hlive]; [apply separated_empty|].
  by apply perform_separated.
Qed.

(** C10. In every world the constructors and methods can reach, no two
    objects share a list; and where no list is shared, [borrow_book]
    appends the book to the member's [borrowed_books], also when it is
    there already, and nothing else changes: the member keeps its [user]
    and its list object, the user object and every other object are the
    same, and so are every Library and its books list. *)
Theorem borrow_book_appends_and_changes_nothing_else :
  (forall w : world pyobj, reachable w -> separated (heap w)) /\
  (forall (w : world pyobj) (m u lb b : loc),
      separated (heap w) ->
      heap w !! m = Some (LibraryMemberObj u lb) ->
      exists items,
        heap w !! lb = Some (ListObj items) /\
        let w' := World (<[lb := ListObj (items ++ [b])]> (heap w))
                        (stdout w) (files w) in
        LibraryMember_borrow_book m b w = (inr tt, w') /\
        heap w' !! lb = Some (ListObj (items ++ [b])) /\
        heap w' !! m = Some (LibraryMemberObj u lb) /\
        heap w' !! u = heap w !! u /\
        (forall l, l <> lb -> heap w' !! l = heap w !! l) /\
        (forall lib name books,
            heap w !! lib = Some (LibraryObj name books) ->
            heap w' !! lib = Some (LibraryObj name books) /\
            heap w' !! books = heap w !! books) /\
        (exists w'',
            LibraryMember_borrow_book m b w' = (inr tt, w'') /\
            heap w'' !! lb = Some (ListObj (items ++ [b; b])))).
Proof.
  split; [exact reachable_separated|].
  intros w m u lb b Hsep Hm. pose proof Hsep as (Hlist & Huniq & Huser).
  destruct (Hlist m _ lb Hm eq_refl) as [items Hitems].
  exists items. split; [done|]. intros w'.
  assert (Hother : forall l, l <> lb -> heap w' !! l = heap w !! l).
  { intros l Hl. by rw /w' /= lookup_insert_ne. }
  assert (Hmlb : m <> lb) by (intros ->; congruence).
  assert (Hm' : heap w' !! m = Some (LibraryMemberObj u lb))
    by (by rw Hother).
  assert (Hlb' : heap w' !! lb = Some (ListObj (items ++ [b])))
    by (by rw /w' /= lookup_insert_eq).
  split; [by apply (LibraryMember_borrow_book_run w m u lb b items)|].
  split; [done|]. split; [done|].
  split; [by apply Hother, (Huser m)|]. split; [done|]. split.
  - intros lib name books Hlib.
    assert (books <> lb).
    { intros ->. pose proof (Huniq _ _ _ _ lb Hlib Hm eq_refl eq_refl). congruence. }
    assert (lib <> lb) by (intros ->; congruence).
    by rw !Hother.
  - eexists. split.
    + by apply (LibraryMember_borrow_book_run w' m u lb b (items ++ [b])).
    + by rw /= lookup_insert_eq -app_assoc.
Qed.

(** C4. Run from a fresh kernel, in order, the code cells print what the
    notebook records for them; the cells that only define a class print
    nothing. *)
Theorem notebook_prints_the_recorded_outputs :
  (notebook fresh_kernel).1 =
    inr [ "";
          "1984 by George Orwell, published in 1949" +:+ nl;
          "";
          "User: Alice, Age: 28" +:+ nl;
          "";
          "Library: City Library with 1 books" +:+ nl
            +:+ "Number of books: 1" +:+ nl;
          "";
          "Python Guide by John Doe, published in 2022 (File size: 5MB)" +:+ nl;
          "";
          "Learn Python by Jane Doe, published in 2023 (Duration: 300 min)" +:+ nl;
          "";
          "['1984 by George Orwell, published in 1949']" +:+ nl;
          "";
          "Rating: 9/5" +:+ nl;
          "";
          "General" +:+ nl ].
Proof. vm_compute. reflexivity. Qed.

Lemma setattrs_snoc (d : gmap string pyval) (assigns : list (string * pyval))
    (k : string) (v : pyval) :
  setattrs d (assigns ++ [(k, v)]) = <[k := v]> (setattrs d assigns).
Proof. by rw /setattrs foldl_app. Qed.

Lemma setattrs_app (d : gmap string pyval)
    (assigns more : list (string * pyval)) :
  setattrs d (assigns ++ more) = setattrs (setattrs d assigns) more.
Proof. apply foldl_app. Qed.

Lemma not_assigned (attr : string) (names : list string) :
  existsb (String.eqb attr) names = false <-> attr ∉ names.
Proof.
  split.
  - intros H Hin. apply list_elem_of_In in Hin.
    assert (existsb (String.eqb attr) names = true); [|congruence].
    apply existsb_exists. exists attr. split; [done|apply String.eqb_refl].
  - intros H. destruct (existsb _ names) eqn:E; [|done].
    apply existsb_exists in E as (x & Hx & ->%String.eqb_eq).
    by apply list_elem_of_In in Hx.
Qed.

Lemma setattrs_lookup_other (assigns : list (string * pyval)) :
  forall (d : gmap string pyval) (attr : string),
    attr ∉ assigns.*1 -> setattrs d assigns !! attr = d !! attr.
Proof.
  induction assigns as [|[k v] assigns IH] using rev_ind; intros d attr Hk;
    [done|].
  rw fmap_app in Hk. apply not_elem_of_app in Hk as [Hk Hv].
  rw setattrs_snoc lookup_insert_ne; [|by apply IH].
  intros ->. apply Hv. simpl. left.
Qed.

Lemma setattrs_lookup (assigns : list (string * pyval)) :
  forall (d : gmap string pyval) (attr : string),
    setattrs d assigns !! attr
    = match dict_of assigns !! attr with
      | Some v => Some v
      | None => d !! attr
      end.
Proof.
  induction assigns as [|[k v] assigns IH] using rev_ind; intros d attr;
    [done|].
  rw /dict_of !setattrs_snoc. destruct (decide (attr = k)) as [->|Hne].
  - by rw !lookup_insert_eq.
  - rw !lookup_insert_ne //.
Qed.

Lemma run_effects_lookup_other (body : list effect) (attr : string) :
  forall d d' : gmap string pyval,
    attr ∉ target <$> body -> run_effects d body = inr d' ->
    d' !! attr = d !! attr.
Proof.
  induction body as [|[k v|k] body IH]; intros d d' Hk; simpl.
  - by intros [= <-].
  - apply not_elem_of_cons in Hk as [Hne Hk]. intros Hrun.
    by rw (IH _ _ Hk Hrun) lookup_insert_ne.
  - apply not_elem_of_cons in Hk as [Hne Hk].
    destruct (d !! k); [|done]. intros Hrun.
    by rw (IH _ _ Hk Hrun) lookup_delete_ne.
Qed.

Lemma set_names_lookup_other (keys : list string) (names : gmap string pyval)
    (attr : string) :
  forall d d' : gmap string pyval,
    (forall k, k ∈ keys -> attr ∉ target <$> set_name_of (names !! k)) ->
    set_names keys names d = inr d' ->
    d' !! attr = d !! attr.
Proof.
  induction keys as [|k keys IH]; intros d d' Hk; simpl; [by intros [= <-]|].
  destruct (run_effects d _) as [e|d1] eqn:Hrun; [done|]. intros Hrest.
  rw (IH d1 d'); [intros k' Hk'; apply Hk; by right|done|].
  eapply run_effects_lookup_other; [|done]. apply Hk. left.
Qed.

Lemma add_members_lookup (slots : list string) :
  forall (d : gmap string pyval) (attr : string),
    add_members d slots !! attr
    = if bool_decide (attr ∈ slots) then Some (VMember attr) else d !! attr.
Proof.
  induction slots as [|slot slots IH] using rev_ind; intros d attr.
  - rw bool_decide_eq_false_2 //. apply not_elem_of_nil.
  - rw /add_members foldl_app /=. rw -/(add_members d slots).
    destruct (decide (attr = slot)) as [->|Hne].
    + rw lookup_insert_eq bool_decide_eq_true_2 //.
      apply elem_of_app. right. left.
    + rw lookup_insert_ne // IH. destruct (decide (attr ∈ slots)) as [Hin|Hout].
      * rw !bool_decide_eq_true_2 //. apply elem_of_app. by left.
      * rw !bool_decide_eq_false_2 //.
        intros [?|?%list_elem_of_singleton]%elem_of_app; done.
Qed.

Lemma type_new_slots_unbound (name : string) (d : gmap string pyval)
    (slots : list string) (attr : string) :
  type_new_slots name d = inr slots -> attr ∈ slots -> is_Some (d !! attr) ->
  attr = "__qualname__" \/ attr = "__classcell__".
Proof.
  rw /type_new_slots. destruct (d !! "__slots__") as [v|];
    [|intros [= <-] Hin; by apply not_elem_of_nil in Hin].
  destruct (slot_names v) as [e|names]; [done|].
  destruct (negb _); [done|]. destruct (_ || _); [done|].
  destruct (List.find _ _) eqn:Hfind; [done|]. intros [= <-] Hin Hsome.
  apply list_elem_of_In in Hin.
  pose proof (find_none _ _ Hfind _ Hin) as Hno. simpl in Hno.
  rw bool_decide_eq_true_2 // in Hno. simpl in Hno.
  destruct (String.eqb_spec attr "__qualname__") as [->|_]; [by left|].
  destruct (String.eqb_spec attr "__classcell__") as [->|_]; [by right|].
  done.
Qed.

Lemma elem_of_keys_of (dct : list (string * pyval)) (k : string) :
  k ∈ keys_of dct <-> k ∈ dct.*1.
Proof. by rw /keys_of elem_of_reverse elem_of_remove_dups elem_of_reverse. Qed.

Lemma rebinds_false (attr : string) (bases : list pyclass)
    (dct : list (string * pyval)) :
  rebinds attr bases dct = false ->
  (forall k, k ∈ keys_of dct ->
             attr ∉ target <$> set_name_of (dict_of dct !! k)) /\
  (forall mro body,
      linearise bases = Some mro -> init_subclass mro = inr body ->
      attr ∉ target <$> body).
Proof.
  rw /rebinds not_assigned /rebound. intros [Hset Hinit]%not_elem_of_app.
  split.
  - intros k Hk Hin. apply Hset. apply list_elem_of_In, in_flat_map.
    exists k. by split; apply list_elem_of_In.
  - intros mro body Hmro Hbody. by rw Hmro Hbody in Hinit.
Qed.

(** What the class ends up binding under a name that no hook touches. *)
Lemma type__new__lookup (id : nat) (name : string) (bases : list pyclass)
    (dct : list (string * pyval)) (c : pyclass) (attr : string) :
  type__new__ id name bases dct = inr c ->
  rebinds attr bases dct = false ->
  attr <> "__qualname__" ->
  exists slots,
    type_new_slots name (dict_of dct) = inr slots /\
    class_dict c !! attr
    = if bool_decide (attr ∈ slots) then Some (VMember attr)
      else dict_of dct !! attr.
Proof.
  intros Hc [Hset Hinit]%rebinds_false Hq. move: Hc. rw /type__new__.
  destruct (type_new_slots name (dict_of dct)) as [e|slots] eqn:Hslots;
    [done|].
  destruct (type_new_set_attrs name (dict_of dct)); [done|].
  destruct (linearise bases) as [mro|] eqn:Hmro; [|done].
  destruct (set_names _ _ _) as [e|d] eqn:Hnames; [done|].
  destruct (init_subclass mro) as [e|body] eqn:Hbody; [done|].
  destruct (run_effects d body) as [e|d'] eqn:Hrun; [done|].
  intros [= <-]. exists slots. split; [done|]. simpl.
  rw (run_effects_lookup_other _ _ _ _ (Hinit _ _ eq_refl Hbody) Hrun).
  rw (set_names_lookup_other _ _ attr _ _ _ Hnames).
  - intros k Hk. rw add_members_lookup.
    case_bool_decide; [apply not_elem_of_nil|].
    destruct (decide (k = "__qualname__")) as [->|Hk'].
    + rw lookup_delete_eq. apply not_elem_of_nil.
    + rw lookup_delete_ne //. by apply Hset.
  - rw add_members_lookup. case_bool_decide; [done|].
    by rw lookup_delete_ne.
Qed.

Lemma ident_continue_not_null (a : ascii) :
  ident_continue a = true -> Ascii.eqb "000" a = false.
Proof. by destruct a as [[] [] [] [] [] [] [] []]. Qed.

Lemma isidentifier_no_null (name : string) :
  isidentifier name = true -> contains "000" name = false.
Proof.
  destruct name as [|a name]; [done|].
  rw /isidentifier /contains. cbn [list_ascii_of_string existsb].
  intros [Ha Hname]%andb_prop.
  rw ident_continue_not_null; [by rw /ident_continue Ha|].
  cbn [orb]. induction (list_ascii_of_string name) as [|b l IH]; [done|].
  cbn [forallb existsb] in *. apply andb_prop in Hname as [Hb Hl].
  by rw ident_continue_not_null // IH.
Qed.

Lemma class_getattr_own (c : pyclass) (attr : string) (v : pyval) :
  class_dict c !! attr = Some v ->
  (forall set_name result, v <> VObject set_name (Some result)) ->
  class_getattr c attr = inr v.
Proof.
  rw /class_getattr /=. intros -> Hv.
  destruct v as [| | | | |set_name [result|]|]; try done. by destruct (Hv set_name result).
Qed.

(** The class MetaBook returns, when no hook assigns [category]. *)
Lemma MetaBook__new__category (id : nat) (name : string)
    (bases : list pyclass) (dct : list (string * pyval)) (c : pyclass) :
  MetaBook__new__ id name bases dct = inr c ->
  rebinds "category" bases (dct ++ [("category", VStr "General")]) = false ->
  class_getattr c "category" = inr (VStr "General").
Proof.
  intros Hc Hhooks.
  destruct (type__new__lookup _ _ _ _ _ "category" Hc Hhooks)
    as (slots & Hslots & Hcat); [done|].
  assert (Hbound : dict_of (dct ++ [("category", VStr "General")]) !! "category"
                   = Some (VStr "General")).
  { by rw /dict_of setattrs_snoc lookup_insert_eq. }
  apply class_getattr_own; [|done]. rw Hcat Hbound bool_decide_eq_false_2 //.
  intros Hin.
  by destruct (type_new_slots_unbound _ _ _ _ Hslots Hin) as [?|?];
    [by rw Hbound| |].
Qed.

(** C7. Every class that MetaBook creates, with no [__set_name__] hook of
    a value of its namespace and no inherited [__init_subclass__] hook
    assigning or deleting [category] during the creation, has [category]
    equal to "General", whatever its body binds, [category] included; a
    class whose body binds nothing but [category] is created, whatever
    the value, and has "General"; [SpecialBook] is created and its
    [category] is "General". *)
Theorem MetaBook_sets_category_General :
  (forall (id : nat) (name : string) (bases : list pyclass)
          (dct : list (string * pyval)) (c : pyclass),
      MetaBook__new__ id name bases dct = inr c ->
      rebinds "category" bases (dct ++ [("category", VStr "General")])
      = false ->
      class_getattr c "category" = inr (VStr "General")) /\
  (forall (id : nat) (name : string) (bases : list pyclass)
          (body : list (string * pyval)) (c : pyclass),
      class_MetaBook id name bases body = inr c ->
      rebinds "category" bases
        (class_namespace name body ++ [("category", VStr "General")])
      = false ->
      class_getattr c "category" = inr (VStr "General")) /\
  (forall (id : nat) (name : string) (v : pyval),
      isidentifier name = true ->
      exists c,
        class_MetaBook id name [] [("category", v)] = inr c /\
        class_getattr c "category" = inr (VStr "General")) /\
  (exists c,
      SpecialBook = inr c /\
      class_getattr c "category" = inr (VStr "General")).
Proof.
  split; [exact MetaBook__new__category|].
  split; [intros id name bases body c; apply MetaBook__new__category|].
  split.
  - intros id name v Hname.
    assert (Hc : class_MetaBook id name [] [("category", v)]
                 = inr (Class id name [] []
                          (<["category" := VStr "General"]>
                             {[ "__module__" := VStr "__main__" ]}))).
    { rw /class_MetaBook /MetaBook__new__ /type__new__.
      change (type_new_slots name _) with (@inr pyexn (list string) []).
      rw /type_new_set_attrs (isidentifier_no_null _ Hname).
      by vm_compute. }
    eexists. split; [exact Hc|]. by vm_compute.
  - eexists. split; [by vm_compute|]. by vm_compute.
Qed.

(** A class whose body binds an object with a [__set_name__] that assigns
    [category] has the category of the hook, not "General". *)
Lemma set_name_hook_changes_category : ~ every_MetaBook_class_is_General.
Proof.
  intros H.
  specialize (H 2%nat "Tagged"%string [] [("tag"%string, tagger)]).
  vm_compute in H. specialize (H _ eq_refl). discriminate H.
Qed.

(** *** The theorems at the notebook's own objects *)

Lemma script_reachable (acts : list action) :
  forall w, reachable w -> valid_script acts w = true ->
            reachable (run_actions acts w).
Proof.
  induction acts as [|a acts IH]; intros w Hw Hok; [done|].
  simpl in Hok. apply andb_prop in Hok as [Hlive Hrest].
  apply IH; [|done]. apply reachable_perform; [done|].
  intros l Hl. rw forallb_forall in Hlive.
  apply list_elem_of_In, Hlive in Hl. by apply bool_decide_eq_true in Hl.
Qed.

Lemma notebook_session_reachable : reachable notebook_session.
Proof.
  apply script_reachable; [apply reachable_fresh|]. by vm_compute.
Qed.

Ltac evaluated := vm_compute; reflexivity.

Lemma subclass_get_info_witness :
  (exists s,
      get_info 2%nat three_editions = (inr s, three_editions) /\
      get_info 0%nat three_editions =
        (inr (s +:+ " (File size: 5MB)"), three_editions)) /\
  (exists s,
      get_info 2%nat three_editions = (inr s, three_editions) /\
      get_info 1%nat three_editions =
        (inr (s +:+ " (Duration: 300 min)"), three_editions)).
Proof.
  destruct (subclass_get_info_extends_parent three_editions python_guide)
    as [HE HA].
  destruct (HE 0%nat 5 ltac:(evaluated)) as (s & _ & Hb & He).
  destruct (HA 1%nat 300 ltac:(evaluated)) as (s' & _ & Hb' & Ha).
  split; [exists s|exists s']; (split; [|assumption]).
  - apply Hb. evaluated.
  - apply Hb'. evaluated.
Defined.

Lemma Rating_add_witness :
  exists c w',
    Rating__add__ 8%nat 9%nat notebook_session = (inr c, w') /\
    heap w' !! c = Some (RatingObj 9) /\
    heap w' !! 8%nat = Some (RatingObj 4) /\
    heap w' !! 9%nat = Some (RatingObj 5) /\
    Rating__str__ c w' = (inr "Rating: 9/5", w').
Proof.
  destruct (Rating_add_sums_without_clamping notebook_session 8%nat 9%nat 4 5
              ltac:(evaluated) ltac:(evaluated))
    as (Hrun & _ & Hc & Ha & Hb & _ & Hstr & _).
  eexists _, _. split; [exact Hrun|]. split; [exact Hc|].
  split; [exact Ha|]. split; [exact Hb|exact Hstr].
Defined.

Lemma Library_witness :
  Library_add_book 3%nat 4%nat notebook_session =
    (inr tt,
     World (<[2%nat := ListObj [0%nat; 4%nat]]> (heap notebook_session))
           (stdout notebook_session) (files notebook_session)) /\
  (exists name,
      Library__str__ 3%nat notebook_session =
        (inr ("Library: " +:+ name +:+ " with 1 books"), notebook_session)).
Proof.
  destruct Library_len_and_str_agree as (_ & Hadd & _ & Hagree). split.
  - apply (Hadd notebook_session 3%nat 2%nat 4%nat "City Library" [0%nat]);
      evaluated.
  - apply (Hagree notebook_session 3%nat 1). evaluated.
Defined.

Lemma set_age_witness :
  User_set_age 1%nat 29 notebook_session =
    (inr tt,
     World (<[1%nat := UserObj "Alice" 29]> (heap notebook_session))
           (stdout notebook_session) (files notebook_session)) /\
  User_set_age 1%nat (-5) notebook_session =
    (inr tt,
     World (heap notebook_session)
           (stdout notebook_session +:+ "Invalid age!" +:+ nl)
           (files notebook_session)) /\
  (exists u w',
      User "Bob" 0 notebook_session = (inr u, w') /\
      heap w' !! u = Some (UserObj "Bob" 0) /\
      User_set_age u 0 w' =
        (inr tt, World (heap w') (stdout w' +:+ "Invalid age!" +:+ nl) (files w'))).
Proof.
  destruct set_age_rejects_without_change_but_constructor_accepts
    as [Hset Hnew].
  destruct (Hset notebook_session 1%nat "Alice" 28 29 ltac:(evaluated))
    as [Hpos _].
  destruct (Hset notebook_session 1%nat "Alice" 28 (-5) ltac:(evaluated))
    as [_ Hneg].
  split; [apply Hpos; lia|]. split; [apply Hneg; lia|].
  destruct (Hnew notebook_session "Bob" 0) as (u & w' & Hrun & Hu & Hrej).
  exists u, w'. split; [exact Hrun|]. split; [exact Hu|]. apply Hrej. lia.
Defined.

Lemma state_changes_witness :
  heap (invoke (Call_get_borrowed_books 7%nat) notebook_session).2 !! 7%nat
    = Some (LibraryMemberObj 1%nat 6%nat) /\
  heap (invoke (Call_set_age 1%nat 0) notebook_session).2 !! 1%nat
    = Some (UserObj "Alice" 28) /\
  heap (invoke (Call_add_book 3%nat 4%nat) notebook_session).2 !! 2%nat
    = Some (ListObj [0%nat; 4%nat]) /\
  heap (invoke (Call_borrow_book 7%nat 4%nat) notebook_session).2 !! 6%nat
    = Some (ListObj [0%nat; 4%nat]) /\
  heap (invoke (Call_set_age 1%nat 29) notebook_session).2 !! 1%nat
    = Some (UserObj "Alice" 29).
Proof.
  destruct state_changes_only_through_mutators
    as (Hkeep & Hadd & Hborrow & Hage).
  split; [apply Hkeep; evaluated|]. split; [apply Hkeep; evaluated|].
  split.
  { apply (Hadd notebook_session 3%nat 2%nat 4%nat "City Library" [0%nat]);
      evaluated. }
  split.
  { apply (Hborrow notebook_session 7%nat 1%nat 6%nat 4%nat [0%nat]);
      evaluated. }
  apply (Hage notebook_session 1%nat "Alice" 28 29); [evaluated|lia].
Defined.

Lemma borrow_book_witness :
  separated (heap notebook_session) /\
  (exists items,
      heap notebook_session !! 6%nat = Some (ListObj items) /\
      LibraryMember_borrow_book 7%nat 4%nat notebook_session =
        (inr tt,
         World (<[6%nat := ListObj (items ++ [4%nat])]> (heap notebook_session))
               (stdout notebook_session) (files notebook_session))).
Proof.
  destruct borrow_book_appends_and_changes_nothing_else as [Hinv Hborrow].
  pose proof (Hinv notebook_session notebook_session_reachable) as Hsep.
  split; [exact Hsep|].
  destruct (Hborrow notebook_session 7%nat 1%nat 6%nat 4%nat
              Hsep ltac:(evaluated))
    as (items & Hitems & Hrun & _).
  exists items. split; [exact Hitems|exact Hrun].
Defined.

Lemma MetaBook_witness :
  exists c,
    class_MetaBook 2 "Novel" [Shelved] [("category", VStr "Fiction")] = inr c /\
    class_getattr c "category" = inr (VStr "General").
Proof.
  destruct MetaBook_sets_category_General as (_ & Hclass & _ & _).
  eexists. split; [evaluated|].
  apply (Hclass 2%nat "Novel" [Shelved] [("category", VStr "Fiction")]);
    evaluated.
Defined.

End NotebookFacts.

Module ExceptionFacts.
Import Py ExceptionHandling.
Import (notations) Stdlib.Floats.Floats.

(** C6. [check_age] raises ValueError exactly for a negative age and
    otherwise prints "Valid age." and returns; [withdraw] raises
    InsufficientFundsError exactly when the amount exceeds the balance,
    where it leaves the world as it was.  A withdrawal of integers that is
    accepted takes the amount off the balance; an accepted withdrawal of
    floats stores the float that their subtraction rounds to. *)
Theorem check_age_and_withdraw_raise_exactly_when_invalid :
  (forall (age : Z) (w : world pyobj),
      ((exists e, (check_age age w).1 = inl e) <-> age < 0) /\
      (age < 0 ->
       check_age age w = (inl (ValueError "Age cannot be negative."), w)) /\
      (~ age < 0 ->
       check_age age w =
         (inr tt, World (heap w) (stdout w +:+ "Valid age." +:+ nl) (files w)))) /\
  (forall (w : world pyobj) (self : loc) (balance amount : Z),
      heap w !! self = Some (BankAccountObj balance) ->
      ((exists e, (BankAccount_withdraw self amount w).1 = inl e)
       <-> amount > balance) /\
      (amount > balance ->
       BankAccount_withdraw self amount w =
         (inl (InsufficientFundsError "Insufficient funds for this transaction."),
          w)) /\
      (~ amount > balance ->
       BankAccount_withdraw self amount w =
         (inr tt,
          World (<[self := BankAccountObj (balance - amount)]> (heap w))
                (stdout w) (files w)))) /\
  (forall (age : PrimFloat.float) (w : world ExceptionHandlingFloats.pyobj),
      ((exists e, (ExceptionHandlingFloats.check_age age w).1 = inl e)
       <-> PrimFloat.ltb age 0%float = true) /\
      (PrimFloat.ltb age 0%float = true ->
       ExceptionHandlingFloats.check_age age w =
         (inl (ValueError "Age cannot be negative."), w)) /\
      (PrimFloat.ltb age 0%float = false ->
       ExceptionHandlingFloats.check_age age w =
         (inr tt, World (heap w) (stdout w +:+ "Valid age." +:+ nl) (files w)))) /\
  (forall (w : world ExceptionHandlingFloats.pyobj) (self : loc)
          (balance amount : PrimFloat.float),
      heap w !! self = Some (ExceptionHandlingFloats.BankAccountObj balance) ->
      ((exists e,
           (ExceptionHandlingFloats.BankAccount_withdraw self amount w).1 = inl e)
       <-> PrimFloat.ltb balance amount = true) /\
      (PrimFloat.ltb balance amount = true ->
       ExceptionHandlingFloats.BankAccount_withdraw self amount w =
         (inl (InsufficientFundsError "Insufficient funds for this transaction."),
          w)) /\
      (PrimFloat.ltb balance amount = false ->
       ExceptionHandlingFloats.BankAccount_withdraw self amount w =
         (inr tt,
          World (<[self := ExceptionHandlingFloats.BankAccountObj
                             (PrimFloat.sub balance amount)]> (heap w))
                (stdout w) (files w)))).
Proof.
  split; [|split; [|split]].
  - intros age w. rw /check_age.
    destruct (Z.ltb_spec age 0) as [Hneg|Hpos].
    + split; [split; [done|by eexists]|]. split; [done|lia].
    + split; [split; [by intros [e He]|lia]|]. split; [lia|done].
  - intros w self balance amount Hself.
    rw /BankAccount_withdraw /bind /deref Hself.
    destruct (Z.ltb_spec balance amount) as [Hover|Hok].
    + split; [split; [lia|by eexists]|]. split; [done|lia].
    + split; [split; [by intros [e He]|lia]|]. split; [lia|done].
  - intros age w. rw /ExceptionHandlingFloats.check_age.
    destruct (PrimFloat.ltb age 0%float).
    + split; [split; [done|by eexists]|]. by split.
    + split; [split; [by intros [e He]|done]|]. by split.
  - intros w self balance amount Hself.
    rw /ExceptionHandlingFloats.BankAccount_withdraw /bind /deref Hself.
    destruct (PrimFloat.ltb balance amount).
    + split; [split; [done|by eexists]|]. by split.
    + split; [split; [by intros [e He]|done]|]. by split.
Qed.

(** On floats an accepted withdrawal need not take the amount off the
    balance: a balance of 1e16 is the same after [withdraw(1.0)]. *)
Lemma withdraw_of_floats_is_rounded :
  ~ ExceptionHandlingFloats.withdraw_decreases_the_balance_by_exactly_amount.
Proof.
  intros H.
  edestruct (H ExceptionHandlingFloats.account_of_1e16 0%nat
               1e16%float 1%float)
    as (balance' & b' & Hbalance & Hexact & Hdiff);
    [vm_compute; reflexivity..|].
  vm_compute in Hbalance. injection Hbalance as <-.
  vm_compute in Hexact. injection Hexact as <-.
  vm_compute in Hdiff. discriminate Hdiff.
Qed.

Lemma check_age_and_withdraw_witness :
  check_age (-5) account_of_100 =
    (inl (ValueError "Age cannot be negative."), account_of_100) /\
  check_age 0 account_of_100 =
    (inr tt,
     World (heap account_of_100) (stdout account_of_100 +:+ "Valid age." +:+ nl)
           (files account_of_100)) /\
  BankAccount_withdraw 0%nat 200 account_of_100 =
    (inl (InsufficientFundsError "Insufficient funds for this transaction."),
     account_of_100) /\
  BankAccount_withdraw 0%nat 100 account_of_100 =
    (inr tt,
     World (<[0%nat := BankAccountObj 0]> (heap account_of_100))
           (stdout account_of_100) (files account_of_100)) /\
  ExceptionHandlingFloats.check_age (-0.5)%float
    ExceptionHandlingFloats.account_of_1e16 =
    (inl (ValueError "Age cannot be negative."),
     ExceptionHandlingFloats.account_of_1e16) /\
  ExceptionHandlingFloats.BankAccount_withdraw 0%nat 2e16%float
    ExceptionHandlingFloats.account_of_1e16 =
    (inl (InsufficientFundsError "Insufficient funds for this transaction."),
     ExceptionHandlingFloats.account_of_1e16) /\
  ExceptionHandlingFloats.BankAccount_withdraw 0%nat 1%float
    ExceptionHandlingFloats.account_of_1e16 =
    (inr tt,
     World (<[0%nat := ExceptionHandlingFloats.BankAccountObj
                         (PrimFloat.sub 1e16%float 1%float)]>
              (heap ExceptionHandlingFloats.account_of_1e16))
           (stdout ExceptionHandlingFloats.account_of_1e16)
           (files ExceptionHandlingFloats.account_of_1e16)).
Proof.
  destruct check_age_and_withdraw_raise_exactly_when_invalid
    as (Hage & Hdraw & Hfage & Hfdraw).
  destruct (Hage (-5) account_of_100) as (_ & Hneg & _).
  destruct (Hage 0 account_of_100) as (_ & _ & Hok).
  destruct (Hdraw account_of_100 0%nat 100 200 ltac:(vm_compute; reflexivity))
    as (_ & Hover & _).
  destruct (Hdraw account_of_100 0%nat 100 100 ltac:(vm_compute; reflexivity))
    as (_ & _ & Hall).
  destruct (Hfage (-0.5)%float ExceptionHandlingFloats.account_of_1e16)
    as (_ & Hfneg & _).
  destruct (Hfdraw ExceptionHandlingFloats.account_of_1e16 0%nat
              1e16%float 2e16%float ltac:(vm_compute; reflexivity))
    as (_ & Hfover & _).
  destruct (Hfdraw ExceptionHandlingFloats.account_of_1e16 0%nat
              1e16%float 1%float ltac:(vm_compute; reflexivity))
    as (_ & _ & Hfall).
  split; [apply Hneg; lia|]. split; [apply Hok; lia|].
  split; [apply Hover; lia|]. split; [apply Hall; lia|].
  split; [apply Hfneg; vm_compute; reflexivity|].
  split; [apply Hfover; vm_compute; reflexivity|].
  apply Hfall; vm_compute; reflexivity.
Defined.

(** The "Using Custom Exceptions" example creates the account, has the
    withdrawal of 200 refused, and prints the exception's message; the
    balance stays 100. *)
Theorem using_custom_exceptions_prints_the_message (w : world pyobj) :
  using_custom_exceptions w =
    (inr tt,
     World (<[fresh (dom (heap w)) := BankAccountObj 100]> (heap w))
           (stdout w +:+ "Insufficient funds for this transaction." +:+ nl)
           (files w)).
Proof.
  rw /using_custom_exceptions /try_except /bind /BankAccount /alloc /=.
  by rw /BankAccount_withdraw /bind /deref /= lookup_insert_eq.
Qed.

End ExceptionFacts.

Module ScratchFacts.
Import Py ScratchFiles.

Lemma write_creates (path content : string) (w : world unit) :
  (file <- open_write path;; file_write file content) w =
    (inr tt, World (heap w) (stdout w) (<[path := content]> (files w))).
Proof.
  rw /bind /open_write /file_write /bind /get_files /set_files /ret /=.
  by rw lookup_insert_eq insert_insert_eq.
Qed.

Lemma pickle_dump_leaves_file {data} (dumps : data -> string) (d : data)
    (w : world unit) :
  files (pickle_dump_example dumps d w).2 !! "data.pkl" = Some (dumps d).
Proof. by rw /pickle_dump_example write_creates /= lookup_insert_eq. Qed.

Lemma json_dump_leaves_file {data} (dumps : data -> string) (d : data)
    (w : world unit) :
  files (json_dump_example dumps d w).2 !! "data.json" = Some (dumps d).
Proof. by rw /json_dump_example write_creates /= lookup_insert_eq. Qed.

Lemma FileManager_example_run (w : world unit) :
  FileManager_example w =
    (inr tt,
     World (heap w) (stdout w +:+ "Hello OOP!" +:+ nl)
           (<["data.txt" := "Hello OOP!"]> (files w))).
Proof.
  rw /FileManager_example /bind /FileManager_write_file write_creates.
  rw /FileManager_read_file /try_except /bind /open_read /bind /get_files /=.
  by rw lookup_insert_eq /= /file_read /bind /get_files /= lookup_insert_eq.
Qed.

Lemma data_file_example_keeps_files (c : M unit) :
  data_file_example c ->
  forall (w : world unit) (path : string),
    is_Some (files w !! path) -> is_Some (files (c w).2 !! path).
Proof.
  intros Hc w path Hpath. destruct Hc.
  - rw /pickle_dump_example write_creates /= lookup_insert.
    by case_decide.
  - rw /pickle_load_example /bind /open_read /bind /get_files /=.
    destruct (files w !! "data.pkl"); [|done]. simpl.
    by destruct (loads _).
  - rw /json_dump_example write_creates /= lookup_insert.
    by case_decide.
  - rw /json_load_example /bind /open_read /bind /get_files /=.
    destruct (files w !! "data.json"); [|done]. simpl.
    by destruct (loads _).
  - rw FileManager_example_run /= lookup_insert. by case_decide.
  - rw /with_open_example /bind /open_read /bind /get_files /=.
    by destruct (files w !! "data.txt").
  - rw /finally_example /bind /try_except /bind /open_read /bind /get_files /=.
    by destruct (files w !! "data.txt").
Qed.

Lemma temporary_file_example_run (name : string) (w : world unit) :
  files w !! name = None ->
  temporary_file_example name w =
    (inr tt,
     World (heap w)
           (stdout w +:+ ("Temporary file created: " +:+ name) +:+ nl)
           (files w)).
Proof.
  intros Hname.
  rw /temporary_file_example /temporary_file /bind /NamedTemporaryFile
     /bind /get_files /set_files /= /try_finally /= /os_remove /bind
     /get_files /set_files /=.
  by rw lookup_insert_eq /= delete_insert_id.
Qed.

(** C3, as the code has it.  The examples that create data.pkl, data.json
    and data.txt leave the file in place when they finish; no example
    that uses these files removes a file; the temporary-file context
    manager alone removes the file it created, and the directory is then
    what it was before. *)
Theorem scratch_files_are_left_in_place :
  (forall data (dumps : data -> string) (d : data) (w : world unit),
      files (pickle_dump_example dumps d w).2 !! "data.pkl" = Some (dumps d)) /\
  (forall data (dumps : data -> string) (d : data) (w : world unit),
      files (json_dump_example dumps d w).2 !! "data.json" = Some (dumps d)) /\
  (forall w : world unit,
      files (FileManager_example w).2 !! "data.txt" = Some "Hello OOP!") /\
  (forall (c : M unit) (w : world unit) (path : string),
      data_file_example c ->
      is_Some (files w !! path) -> is_Some (files (c w).2 !! path)) /\
  (forall (name : string) (w : world unit),
      files w !! name = None ->
      files (temporary_file_example name w).2 = files w).
Proof.
  split; [intros; apply pickle_dump_leaves_file|].
  split; [intros; apply json_dump_leaves_file|].
  split; [intros; by rw FileManager_example_run /= lookup_insert_eq|].
  split; [intros c w path Hc; by apply data_file_example_keeps_files|].
  intros name w Hname. by rw temporary_file_example_run.
Qed.

(** C3, as stated, fails: on an empty directory the pickling example
    creates data.pkl and ends with the file still there. *)
Lemma pickle_example_leaves_data_pkl : ~ every_example_cleans_up.
Proof.
  intros H.
  specialize (H (pickle_dump_example (fun _ : unit => ""%string) tt)
                (ex_data_file _ (ex_pickle_dump _ _))
                (World ∅ "" ∅) "data.pkl"%string).
  rw pickle_dump_leaves_file in H.
  discriminate H; [rw /scratch; auto | done].
Qed.

Lemma scratch_files_witness :
  is_Some (files (FileManager_example notes_only).2 !! "notes.txt") /\
  files (FileManager_example notes_only).2 !! "data.txt" = Some "Hello OOP!" /\
  files (temporary_file_example "tmpk3v9_x2a" notes_only).2 = files notes_only.
Proof.
  destruct scratch_files_are_left_in_place as (_ & _ & Htxt & Hkeep & Htmp).
  split; [|split; [apply Htxt|]].
  - apply Hkeep; [apply ex_FileManager|]. eexists. vm_compute; reflexivity.
  - apply Htmp. vm_compute; reflexivity.
Defined.

End ScratchFacts.

Module NotebookSessionFacts.
Import Py Notebook NotebookLoops NotebookFacts.

(** [get_info] looks at the object it is called on and at nothing else. *)
Lemma get_info_result (w : world pyobj) (x : loc) :
  get_info x w =
    (match heap w !! x with
     | Some (BookObj b) =>
         inr (title b +:+ " by " +:+ author b +:+ ", published in "
              +:+ str_int (year b))
     | Some (EBookObj b file_size) =>
         inr ((title b +:+ " by " +:+ author b +:+ ", published in "
               +:+ str_int (year b))
              +:+ " (File size: " +:+ str_int file_size +:+ "MB)")
     | Some (AudioBookObj b duration) =>
         inr ((title b +:+ " by " +:+ author b +:+ ", published in "
               +:+ str_int (year b))
              +:+ " (Duration: " +:+ str_int duration +:+ " min)")
     | _ => inl AttributeError
     end, w).
Proof.
  rw /get_info /EBook_get_info /AudioBook_get_info /Book_get_info /bind /deref.
  destruct (heap w !! x) as [o|] eqn:Hx; [|done].
  destruct o; rw /= ?Hx /= ?Hx /= ?Hx //=.
Qed.

Lemma get_info_book (w : world pyobj) (x : loc) (o : pyobj) (bk : book) :
  heap w !! x = Some o -> book_attrs o = Some bk ->
  exists s, get_info x w = (inr s, w).
Proof.
  intros Hx Hbk. rw get_info_result Hx.
  destruct o; try discriminate; by eexists.
Qed.

Lemma get_info_not_book (w : world pyobj) (x : loc) :
  (forall o, heap w !! x = Some o -> book_attrs o = None) ->
  get_info x w = (inl AttributeError, w).
Proof.
  intros Hx. rw get_info_result.
  destruct (heap w !! x) as [o|]; [|done].
  specialize (Hx o eq_refl). by destruct o.
Qed.

Lemma get_info_raises_only_AttributeError (w : world pyobj) (x : loc) :
  (exists s, get_info x w = (inr s, w)) \/
  get_info x w = (inl AttributeError, w).
Proof.
  rw get_info_result. destruct (heap w !! x) as [[]|]; eauto.
Qed.

(** The info of an object is the same after an append to a list. *)
Lemma get_info_after_append (w : world pyobj) (x lb : loc)
    (items items' : list loc) (s : string) :
  heap w !! lb = Some (ListObj items) ->
  get_info x w = (inr s, w) ->
  let w' := World (<[lb := ListObj items']> (heap w)) (stdout w) (files w) in
  get_info x w' = (inr s, w').
Proof.
  intros Hlb Hx w'. rw get_info_result in Hx. rw get_info_result.
  destruct (decide (x = lb)) as [->|Hne].
  - rw Hlb in Hx. discriminate Hx.
  - rw /w' /= lookup_insert_ne //.
    destruct (heap w !! x) as [[]|]; by simplify_eq.
Qed.

Lemma comprehension_get_info_books (w : world pyobj) (items : list loc) :
  Forall (fun x => exists o bk, heap w !! x = Some o /\ book_attrs o = Some bk)
         items ->
  exists infos,
    comprehension get_info items w = (inr infos, w) /\
    Forall2 (fun x s => get_info x w = (inr s, w)) items infos.
Proof.
  induction 1 as [|x items (o & bk & Hx & Hbk) _ (infos & Hrun & Hall)].
  - by exists [].
  - destruct (get_info_book w x o bk Hx Hbk) as [s Hs].
    exists (s :: infos). split; [by rw /= /bind Hs Hrun|by constructor].
Qed.

Lemma comprehension_get_info_stranger (w : world pyobj) (items : list loc) :
  Exists (fun x => forall o, heap w !! x = Some o -> book_attrs o = None) items ->
  comprehension get_info items w = (inl AttributeError, w).
Proof.
  induction 1 as [x items Hx|x items _ IH].
  - by rw /= /bind (get_info_not_book w x Hx).
  - rw /= /bind. destruct (get_info_raises_only_AttributeError w x)
      as [[s ->]| ->]; [by rw IH|done].
Qed.

Lemma get_borrowed_books_run (w : world pyobj) (m u lb : loc) (items : list loc) :
  heap w !! m = Some (LibraryMemberObj u lb) ->
  heap w !! lb = Some (ListObj items) ->
  LibraryMember_get_borrowed_books m w = comprehension get_info items w.
Proof.
  intros Hm Hlb.
  by rw /LibraryMember_get_borrowed_books /bind (deref_live _ _ _ Hm)
        (deref_live _ _ _ Hlb).
Qed.

(** [borrow_book] takes any object; [get_borrowed_books] returns the
    [get_info] strings of the borrowed objects, in the order borrowed and
    each by its own class, when all of them are books, e-books or
    audiobooks, and raises AttributeError as soon as one of them is not. *)
Theorem get_borrowed_books_needs_every_item_to_be_a_book
    (w : world pyobj) (m u lb : loc) (items : list loc) :
  heap w !! m = Some (LibraryMemberObj u lb) ->
  heap w !! lb = Some (ListObj items) ->
  (forall x, exists w', LibraryMember_borrow_book m x w = (inr tt, w')) /\
  (Forall (fun x => exists o bk, heap w !! x = Some o /\ book_attrs o = Some bk)
          items ->
   exists infos,
     LibraryMember_get_borrowed_books m w = (inr infos, w) /\
     Forall2 (fun x s => get_info x w = (inr s, w)) items infos) /\
  (Exists (fun x => forall o, heap w !! x = Some o -> book_attrs o = None)
          items ->
   LibraryMember_get_borrowed_books m w = (inl AttributeError, w)).
Proof.
  intros Hm Hlb. split; [|split].
  - intros x. eexists. by apply (LibraryMember_borrow_book_run w m u lb x items).
  - intros Hall. rw (get_borrowed_books_run w m u lb items) //.
    by apply comprehension_get_info_books.
  - intros Hone. rw (get_borrowed_books_run w m u lb items) //.
    by apply comprehension_get_info_stranger.
Qed.

Lemma get_borrowed_books_witness :
  (exists infos,
      LibraryMember_get_borrowed_books 7%nat notebook_session
        = (inr infos, notebook_session) /\
      Forall2 (fun x s => get_info x notebook_session = (inr s, notebook_session))
              [0%nat] infos) /\
  LibraryMember_get_borrowed_books 7%nat member_borrowed_a_user
    = (inl AttributeError, member_borrowed_a_user).
Proof.
  assert (Hm : heap notebook_session !! 7%nat = Some (LibraryMemberObj 1%nat 6%nat))
    by (vm_compute; reflexivity).
  assert (Hlb : heap notebook_session !! 6%nat = Some (ListObj [0%nat]))
    by (vm_compute; reflexivity).
  assert (Hm' : heap member_borrowed_a_user !! 7%nat
                = Some (LibraryMemberObj 1%nat 6%nat))
    by (vm_compute; reflexivity).
  assert (Hlb' : heap member_borrowed_a_user !! 6%nat
                 = Some (ListObj [0%nat; 1%nat]))
    by (vm_compute; reflexivity).
  destruct (get_borrowed_books_needs_every_item_to_be_a_book
              notebook_session 7%nat 1%nat 6%nat [0%nat] Hm Hlb)
    as (_ & Hbooks & _).
  destruct (get_borrowed_books_needs_every_item_to_be_a_book
              member_borrowed_a_user 7%nat 1%nat 6%nat [0%nat; 1%nat] Hm' Hlb')
    as (_ & _ & Hstranger).
  split.
  - apply Hbooks. repeat constructor.
    exists (BookObj (MkBook "1984" "George Orwell" 1949)),
           (MkBook "1984" "George Orwell" 1949).
    split; vm_compute; reflexivity.
  - apply Hstranger. apply Exists_cons_tl, Exists_cons_hd.
    intros o Ho.
    assert (Hu : heap member_borrowed_a_user !! 1%nat = Some (UserObj "Alice" 28))
      by (vm_compute; reflexivity).
    rw Hu in Ho. by injection Ho as <-.
Defined.

Lemma comprehension_get_info_snoc (w : world pyobj) (lb b : loc)
    (items0 items' : list loc) (s : string) (items : list loc) :
  heap w !! lb = Some (ListObj items0) ->
  get_info b w = (inr s, w) ->
  let w' := World (<[lb := ListObj items']> (heap w)) (stdout w) (files w) in
  forall infos,
    comprehension get_info items w = (inr infos, w) ->
    comprehension get_info (items ++ [b]) w' = (inr (infos ++ [s]), w').
Proof.
  intros Hlb Hb w'. induction items as [|x items IH]; intros infos Hrun.
  - injection Hrun as <-.
    by rw /= /bind (get_info_after_append w b lb items0 items' s Hlb Hb).
  - rw /= /bind in Hrun.
    destruct (get_info_raises_only_AttributeError w x) as [[a Ha]|Ha];
      rw Ha in Hrun; [|discriminate Hrun].
    destruct (comprehension get_info items w) as [[e|rest] w1] eqn:Hrest;
      [discriminate Hrun|].
    injection Hrun as <- ->.
    rw /= /bind (get_info_after_append w x lb items0 items' a Hlb Ha).
    by rw (IH rest eq_refl).
Qed.

(** Borrowing one more book adds its info string at the end of what
    [get_borrowed_books] returns and keeps the earlier entries. *)
Theorem borrowing_appends_the_info_of_the_book
    (w : world pyobj) (m u lb b : loc) (items : list loc)
    (infos : list string) (s : string) :
  heap w !! m = Some (LibraryMemberObj u lb) ->
  heap w !! lb = Some (ListObj items) ->
  LibraryMember_get_borrowed_books m w = (inr infos, w) ->
  get_info b w = (inr s, w) ->
  exists w',
    LibraryMember_borrow_book m b w = (inr tt, w') /\
    LibraryMember_get_borrowed_books m w' = (inr (infos ++ [s]), w').
Proof.
  intros Hm Hlb Hinfos Hb.
  rw (get_borrowed_books_run w m u lb items Hm Hlb) in Hinfos.
  eexists. split; [by apply (LibraryMember_borrow_book_run w m u lb b items)|].
  assert (m <> lb) by (intros ->; congruence).
  rw (get_borrowed_books_run _ m u lb (items ++ [b])).
  - by rw /= lookup_insert_ne.
  - by rw /= lookup_insert_eq.
  - by apply (comprehension_get_info_snoc w lb b items).
Qed.

Lemma borrowing_appends_witness :
  exists w',
    LibraryMember_borrow_book 7%nat 4%nat notebook_session = (inr tt, w') /\
    LibraryMember_get_borrowed_books 7%nat w' =
      (inr [ "1984 by George Orwell, published in 1949";
             "Python Guide by John Doe, published in 2022 (File size: 5MB)" ],
       w').
Proof.
  apply (borrowing_appends_the_info_of_the_book
           notebook_session 7%nat 1%nat 6%nat 4%nat [0%nat]
           ["1984 by George Orwell, published in 1949"]
           "Python Guide by John Doe, published in 2022 (File size: 5MB)");
    vm_compute; reflexivity.
Defined.

Lemma last_of_nonempty {A} (l : list A) (d d' : A) :
  l <> [] -> List.last l d = List.last l d'.
Proof.
  induction l as [|x [|y l] IH]; intros Hl; [done|done|].
  change (List.last (y :: l) d = List.last (y :: l) d'). by apply IH.
Qed.

Lemma set_ages_run (ages : list Z) :
  forall (w : world pyobj) (u : loc) (name : string) (age : Z),
    heap w !! u = Some (UserObj name age) ->
    exists w',
      set_ages u ages w = (inr tt, w') /\
      heap w' !! u
        = Some (UserObj name (List.last (List.filter (Z.ltb 0) ages) age)) /\
      (forall l, l <> u -> heap w' !! l = heap w !! l).
Proof.
  induction ages as [|n ages IH]; intros w u name age Hu.
  - by exists w.
  - rw /= /bind /User_set_age /bind (deref_live _ _ _ Hu).
    destruct (0 <? n) eqn:Hn; simpl.
    + set (w1 := World _ _ _).
      destruct (IH w1 u name n) as (w' & Hrun & Hage & Hother).
      { by rw /w1 /= lookup_insert_eq. }
      exists w'. split; [done|]. split.
      * rw Hage. f_equal. f_equal.
        destruct (List.filter (Z.ltb 0) ages) as [|k ks] eqn:Hf; [done|].
        by apply last_of_nonempty.
      * intros l Hl. rw Hother // /w1 /= lookup_insert_ne //.
    + set (w1 := World _ _ _).
      destruct (IH w1 u name age) as (w' & Hrun & Hage & Hother); [done|].
      by exists w'.
Qed.

(** A user whose age is positive keeps a positive age and its name under
    any sequence of [set_age] calls: the age ends as the last positive age
    of the sequence, or as it was when there is none, nothing else on the
    heap changes, and [get_user_info] shows that age. *)
Theorem set_age_keeps_a_positive_age
    (w : world pyobj) (u : loc) (name : string) (age : Z) (ages : list Z) :
  heap w !! u = Some (UserObj name age) ->
  0 < age ->
  exists w' age',
    set_ages u ages w = (inr tt, w') /\
    heap w' !! u = Some (UserObj name age') /\
    age' = List.last (List.filter (Z.ltb 0) ages) age /\
    0 < age' /\
    (forall l, l <> u -> heap w' !! l = heap w !! l) /\
    User_get_user_info u w'
      = (inr ("User: " +:+ name +:+ ", Age: " +:+ str_int age'), w').
Proof.
  intros Hu Hage.
  destruct (set_ages_run ages w u name age Hu) as (w' & Hrun & Hu' & Hother).
  exists w', (List.last (List.filter (Z.ltb 0) ages) age).
  split; [done|]. split; [done|]. split; [done|]. split; [|split; [done|]].
  - clear Hu Hu' Hrun. revert age Hage.
    induction ages as [|n ages IH]; intros age Hage; [done|].
    simpl. destruct (Z.ltb_spec 0 n) as [Hn|Hn]; [|by apply IH].
    destruct (List.filter (Z.ltb 0) ages) as [|k ks] eqn:Hf; [done|].
    change (0 < List.last (k :: ks) age). by apply IH.
  - by rw /User_get_user_info /bind (deref_live _ _ _ Hu').
Qed.

Lemma set_age_sequence_witness :
  exists w',
    set_ages 1%nat [30; -1; 31; 0] notebook_session = (inr tt, w') /\
    heap w' !! 1%nat = Some (UserObj "Alice" 31) /\
    User_get_user_info 1%nat w' = (inr "User: Alice, Age: 31", w').
Proof.
  destruct (set_age_keeps_a_positive_age notebook_session 1%nat "Alice" 28
              [30; -1; 31; 0] ltac:(vm_compute; reflexivity) ltac:(lia))
    as (w' & age' & Hrun & Hu & -> & _ & _ & Hinfo).
  exists w'. split; [exact Hrun|]. split; [exact Hu|exact Hinfo].
Defined.

(** MetaBook binds [category] and nothing else.  For a name other than
    [category], not between double underscores, that no hook run at the
    creation assigns or deletes: what the body binds under it is in the
    dict of the class, and is what reading it from the class gives unless
    the value has a [__get__]; and a name that the body does not bind is
    not in the dict of a class without slots. *)
Theorem MetaBook_keeps_the_other_attributes
    (id : nat) (name : string) (bases : list pyclass)
    (body : list (string * pyval)) (c : pyclass) (attr : string) :
  class_MetaBook id name bases body = inr c ->
  attr <> "category" ->
  dunder attr = false ->
  rebinds attr bases
    (class_namespace name body ++ [("category", VStr "General")]) = false ->
  (forall v : pyval,
      dict_of body !! attr = Some v ->
      class_dict c !! attr = Some v /\
      ((forall set_name result, v <> VObject set_name (Some result)) ->
       class_getattr c attr = inr v)) /\
  (dict_of body !! "__slots__" = None ->
   dict_of body !! attr = None ->
   class_dict c !! attr = None).
Proof.
  intros Hc Hattr Hdunder Hhooks.
  assert (Hq : attr <> "__qualname__") by (by intros ->).
  assert (Hm : attr <> "__module__") by (by intros ->).
  destruct (type__new__lookup _ _ _ _ _ attr Hc Hhooks Hq)
    as (slots & Hslots & Hown).
  assert (Hns : forall k : string,
    k <> "__qualname__" -> k <> "__module__" -> k <> "category" ->
    dict_of (class_namespace name body ++ [("category", VStr "General")]) !! k
    = dict_of body !! k).
  { intros k Hkq Hkm Hkc. rw /dict_of setattrs_snoc lookup_insert_ne //.
    rw /class_namespace setattrs_app setattrs_lookup.
    change (setattrs ∅ body) with (dict_of body).
    destruct (dict_of body !! k); [done|].
    by rw /= lookup_insert_ne // lookup_insert_ne. }
  rw Hns // in Hown. split.
  - intros v Hv. assert (Hd : class_dict c !! attr = Some v).
    { rw Hown Hv bool_decide_eq_false_2 //. intros Hin.
      destruct (type_new_slots_unbound _ _ _ _ Hslots Hin) as [?|?];
        [by rw Hns // Hv|done|by subst]. }
    split; [done|]. by apply class_getattr_own.
  - intros Hnoslots Hnone. rw Hown Hnone.
    move: Hslots. rw /type_new_slots Hns // Hnoslots. intros [= <-].
    rw bool_decide_eq_false_2 //. apply not_elem_of_nil.
Qed.

Lemma MetaBook_keeps_witness :
  exists c,
    class_MetaBook 2 "Novel" [Shelved]
      [("category", VStr "Fiction"); ("pages", VInt 328)] = inr c /\
    class_getattr c "pages" = inr (VInt 328) /\
    class_dict c !! "isbn" = None.
Proof.
  destruct (MetaBook_keeps_the_other_attributes 2%nat "Novel" [Shelved]
              [("category", VStr "Fiction"); ("pages", VInt 328)]
              (Class 2 "Novel" [Shelved] [Shelved]
                 (<["shelf" := VInt 3]>
                    (<["pages" := VInt 328]>
                       (<["category" := VStr "General"]>
                          {[ "__module__" := VStr "__main__" ]}))))
              "pages")
    as [Hbound _]; [vm_compute; reflexivity|discriminate|reflexivity..|].
  destruct (MetaBook_keeps_the_other_attributes 2%nat "Novel" [Shelved]
              [("category", VStr "Fiction"); ("pages", VInt 328)]
              (Class 2 "Novel" [Shelved] [Shelved]
                 (<["shelf" := VInt 3]>
                    (<["pages" := VInt 328]>
                       (<["category" := VStr "General"]>
                          {[ "__module__" := VStr "__main__" ]}))))
              "isbn")
    as [_ Hunbound]; [vm_compute; reflexivity|discriminate|reflexivity..|].
  eexists. split; [vm_compute; reflexivity|]. split.
  - apply (Hbound (VInt 328)); [vm_compute; reflexivity|discriminate].
  - apply Hunbound; vm_compute; reflexivity.
Defined.

End NotebookSessionFacts.

Module ExceptionInvariants.
Import Py ExceptionHandling.

(** A balance that is not negative stays so under [withdraw], accepted or
    refused, and no other object changes; a negative amount is never
    refused and raises the balance by its size. *)
Theorem withdraw_never_leaves_a_negative_balance
    (w : world pyobj) (self : loc) (balance amount : Z) :
  heap w !! self = Some (BankAccountObj balance) ->
  0 <= balance ->
  exists balance',
    heap (BankAccount_withdraw self amount w).2 !! self
      = Some (BankAccountObj balance') /\
    0 <= balance' /\
    (forall l, l <> self ->
               heap (BankAccount_withdraw self amount w).2 !! l = heap w !! l) /\
    (amount < 0 ->
     (BankAccount_withdraw self amount w).1 = inr tt /\
     balance' = balance + - amount).
Proof.
  intros Hself Hbal. rw /BankAccount_withdraw /bind /deref Hself.
  destruct (Z.ltb_spec balance amount) as [Hover|Hok]; simpl.
  - exists balance. split; [done|]. split; [done|]. split; [done|lia].
  - exists (balance - amount). split; [by rw lookup_insert_eq|].
    split; [lia|]. split; [|intros _; split; [done|lia]].
    intros l Hl. by rw lookup_insert_ne.
Qed.

Lemma withdraw_invariant_witness :
  exists balance',
    heap (BankAccount_withdraw 0%nat (-50) account_of_100).2 !! 0%nat
      = Some (BankAccountObj balance') /\
    0 <= balance' /\
    (BankAccount_withdraw 0%nat (-50) account_of_100).1 = inr tt /\
    balance' = 150.
Proof.
  destruct (withdraw_never_leaves_a_negative_balance account_of_100 0%nat 100 (-50)
              ltac:(vm_compute; reflexivity) ltac:(lia))
    as (balance' & Hacc & Hpos & _ & Hneg).
  destruct (Hneg ltac:(lia)) as [Hret Hval].
  exists balance'. split; [exact Hacc|]. split; [exact Hpos|].
  split; [exact Hret|exact Hval].
Defined.

End ExceptionInvariants.

Module FileHandlingFacts.
Import Py ScratchFiles FileHandling.

Lemma string_app_assoc (a b c : string) : (a +:+ b) +:+ c = a +:+ (b +:+ c).
Proof.
  induction a as [|x a IH]; [done|].
  change (String x ((a +:+ b) +:+ c) = String x (a +:+ b +:+ c)). by f_equal.
Qed.

Lemma string_app_empty_r (a : string) : a +:+ "" = a.
Proof.
  induction a as [|x a IH]; [done|].
  change (String x (a +:+ "") = String x a). by f_equal.
Qed.

Lemma concat_app (l1 l2 : list string) :
  String.concat "" (l1 ++ l2) = String.concat "" l1 +:+ String.concat "" l2.
Proof.
  induction l1 as [|a l1 IH]; [done|].
  destruct l1 as [|b l1].
  - destruct l2 as [|c l2]; [by rw /= string_app_empty_r|done].
  - change (a +:+ "" +:+ String.concat "" ((b :: l1) ++ l2)
            = (a +:+ "" +:+ String.concat "" (b :: l1)) +:+ String.concat "" l2).
    by rw IH /= !string_app_assoc.
Qed.

Lemma concat_cons (a : string) (l : list string) :
  String.concat "" (a :: l) = a +:+ String.concat "" l.
Proof. apply (concat_app [a] l). Qed.




Lemma open_read_run (path content : string) (w : world unit) :
  files w !! path = Some content -> open_read path w = (inr path, w).
Proof. intros H. by rw /open_read /bind /get_files /= H. Qed.


Section TextMode.
Variable refusal : string -> option pyexn.
Variable decode : string -> pyexn + string.
Variable encode : string -> pyexn + string.

Lemma text_read_run (file bytes : string) (w : world unit) :
  files w !! file = Some bytes ->
  text_read decode file w
  = (match decode bytes with inl e => inl e | inr text => inr text end, w).
Proof.
  intros Hf. rw /text_read /bind /file_read /bind /get_files /= Hf /=.
  by destruct (decode bytes).
Qed.

Lemma text_open_write_run (path : string) (w : world unit) :
  refusal path = None ->
  text_open_write refusal path w
  = (inr path, World (heap w) (stdout w) (<[path := ""]> (files w))).
Proof. intros Hp. by rw /text_open_write Hp. Qed.

Lemma text_write_run (file held content bytes : string) (w : world unit) :
  files w !! file = Some held ->
  encode content = inr bytes ->
  text_write encode file content w
  = (inr tt, World (heap w) (stdout w) (<[file := held +:+ bytes]> (files w))).
Proof.
  intros Hf Hc. by rw /text_write Hc /file_write /bind /get_files /= Hf.
Qed.


(** What [copy_file] does with a source that exists.  Bytes that are no
    text make [read()] raise, and a destination that cannot be opened
    makes [open] raise, both with nothing changed; text that cannot be
    written leaves the destination empty; otherwise the destination is
    created or replaced and holds the text of the source as written, no
    other file changes, and nothing is printed. *)
Theorem copy_file_gives_the_destination_the_text_of_the_source
    (source destination bytes : string) (w : world unit) :
  files w !! source = Some bytes ->
  copy_file refusal decode encode source destination w
  = match decode bytes with
    | inl e => (inl e, w)
    | inr text =>
        match refusal destination with
        | Some e => (inl e, w)
        | None =>
            match encode text with
            | inl e =>
                (inl e,
                 World (heap w) (stdout w) (<[destination := ""]> (files w)))
            | inr written =>
                (inr tt,
                 World (heap w) (stdout w)
                       (<[destination := written]> (files w)))
            end
        end
    end.
Proof.
  intros Hsrc.
  rw /copy_file /bind (open_read_run _ _ _ Hsrc) (text_read_run _ _ _ Hsrc).
  destruct (decode bytes) as [e|text]; [done|].
  rw /text_open_write. destruct (refusal destination) as [e|]; [done|].
  rw /= /text_write. destruct (encode text) as [e|written]; [done|].
  by rw /file_write /bind /get_files /set_files /= lookup_insert_eq
        insert_insert_eq.
Qed.

Lemma text_writelines_run (lines : list string) :
  forall (encoded : list string) (file held : string) (w : world unit),
    Forall2 (fun line bytes => encode line = inr bytes) lines encoded ->
    files w !! file = Some held ->
    text_writelines encode file lines w =
      (inr tt,
       World (heap w) (stdout w)
             (<[file := held +:+ String.concat "" encoded]> (files w))).
Proof.
  induction lines as [|line lines IH]; intros encoded file held w Hall Hheld.
  - apply Forall2_nil_inv_l in Hall as ->.
    rw /= string_app_empty_r insert_id //. by destruct w.
  - apply Forall2_cons_inv_l in Hall as (bytes & rest & Hline & Hrest & ->).
    rw concat_cons /= /bind (text_write_run _ _ _ _ _ Hheld Hline).
    rw (IH rest file (held +:+ bytes)); [done|by rw /= lookup_insert_eq|].
    by rw /= insert_insert_eq string_app_assoc.
Qed.

Lemma append_lines_run (filename : string) (lines encoded : list string)
    (w : world unit) :
  refusal filename = None ->
  Forall2 (fun line bytes => encode line = inr bytes) lines encoded ->
  append_lines refusal encode filename lines w =
    (inr tt,
     World (heap w) (stdout w)
           (<[filename := default "" (files w !! filename)
                          +:+ String.concat "" encoded]> (files w))).
Proof.
  intros Hopen Hall.
  rw /append_lines /bind /text_open_append Hopen /bind /get_files /set_files /=.
  rw (text_writelines_run lines encoded filename
        (default "" (files w !! filename))); [done|by rw /= lookup_insert_eq|].
  by rw /= insert_insert_eq.
Qed.

(** [append_lines] on a path that [open] refuses raises the exception of
    [open] and changes nothing.  Otherwise it creates the file when it is
    missing, puts the lines as they are written at the end of what the
    file holds, one after the other with nothing added between them, and
    touches no other file; two calls in a row write what one call with
    both lists writes. *)
Theorem append_lines_concatenates_at_the_end
    (filename : string) (lines more encoded encoded_more : list string)
    (w : world unit) :
  (forall e, refusal filename = Some e ->
             append_lines refusal encode filename lines w = (inl e, w)) /\
  (refusal filename = None ->
   Forall2 (fun line bytes => encode line = inr bytes) lines encoded ->
   append_lines refusal encode filename lines w =
     (inr tt,
      World (heap w) (stdout w)
            (<[filename := default "" (files w !! filename)
                           +:+ String.concat "" encoded]> (files w))) /\
   (Forall2 (fun line bytes => encode line = inr bytes) more encoded_more ->
    (_ <- append_lines refusal encode filename lines;;
     append_lines refusal encode filename more) w
    = append_lines refusal encode filename (lines ++ more) w)).
Proof.
  split.
  - intros e He. by rw /append_lines /bind /text_open_append He.
  - intros Hopen Hall. split; [by apply append_lines_run|]. intros Hmore.
    rw /bind (append_lines_run _ _ _ _ Hopen Hall).
    rw (append_lines_run _ _ _ _ Hopen Hmore).
    rw (append_lines_run _ _ (encoded ++ encoded_more) _ Hopen);
      [by apply Forall2_app|].
    by rw /= lookup_insert_eq /= insert_insert_eq concat_app string_app_assoc.
Qed.

End TextMode.


Lemma copy_file_witness :
  copy_file flat_directory ascii_decode ascii_encode
    "source.txt" "destination.txt" source_and_log
  = (inr tt,
     World ∅ "" (<["destination.txt" := "first line"]> (files source_and_log)))
  /\
  copy_file flat_directory ascii_decode ascii_encode
    "source.txt" "backup/destination.txt" source_and_log
  = (inl (FileNotFoundError "backup/destination.txt"), source_and_log) /\
  copy_file flat_directory ascii_decode ascii_encode
    "image.bin" "copy.bin" crlf_and_binary
  = (inl (ValueError "'ascii' codec can't decode bytes"), crlf_and_binary) /\
  copy_file flat_directory ascii_decode ascii_encode
    "dos.txt" "dos.txt" crlf_and_binary
  = (inr tt,
     World ∅ ""
       (<["dos.txt" := String "a" (String "010" "b")]> (files crlf_and_binary))).
Proof.
  split; [|split; [|split]].
  - by rw (copy_file_gives_the_destination_the_text_of_the_source
             flat_directory ascii_decode ascii_encode
             "source.txt" "destination.txt" "first line" source_and_log
             ltac:(vm_compute; reflexivity)).
  - by rw (copy_file_gives_the_destination_the_text_of_the_source
             flat_directory ascii_decode ascii_encode
             "source.txt" "backup/destination.txt" "first line" source_and_log
             ltac:(vm_compute; reflexivity)).
  - by rw (copy_file_gives_the_destination_the_text_of_the_source
             flat_directory ascii_decode ascii_encode
             "image.bin" "copy.bin" (String "255" (String "254" ""))
             crlf_and_binary ltac:(vm_compute; reflexivity)).
  - by rw (copy_file_gives_the_destination_the_text_of_the_source
             flat_directory ascii_decode ascii_encode
             "dos.txt" "dos.txt" (String "a" (String "013" (String "010" "b")))
             crlf_and_binary ltac:(vm_compute; reflexivity)).
Defined.

Lemma append_lines_witness :
  append_lines flat_directory ascii_encode "" ["Log entry 1" +:+ nl]
    source_and_log
  = (inl (FileNotFoundError ""), source_and_log) /\
  append_lines flat_directory ascii_encode "log.txt"
    ["Log entry 1" +:+ nl; "Log entry 2" +:+ nl] source_and_log
  = (inr tt,
     World ∅ ""
       (<["log.txt" := ("Log entry 0" +:+ nl)
                       +:+ String.concat ""
                             ["Log entry 1" +:+ nl; "Log entry 2" +:+ nl]]>
          (files source_and_log))).
Proof.
  destruct (append_lines_concatenates_at_the_end flat_directory ascii_encode
              "" ["Log entry 1" +:+ nl] [] ["Log entry 1" +:+ nl] []
              source_and_log) as [Hrefused _].
  destruct (append_lines_concatenates_at_the_end flat_directory ascii_encode
              "log.txt" ["Log entry 1" +:+ nl; "Log entry 2" +:+ nl] []
              ["Log entry 1" +:+ nl; "Log entry 2" +:+ nl] []
              source_and_log) as [_ Hdone].
  split; [by apply Hrefused|].
  destruct Hdone as [Hrun _]; [reflexivity|by repeat constructor|].
  exact Hrun.
Defined.

(** The finally-block example of the exception lesson needs data.txt:
    where there is no such file it prints "File not found." and then
    raises NameError from its [finally] clause, [file] never having been
    bound; no file changes. *)
Theorem finally_example_raises_NameError_without_the_file (w : world unit) :
  files w !! "data.txt" = None ->
  finally_example w =
    (inl NameError,
     World (heap w) (stdout w +:+ "File not found." +:+ nl) (files w)).
Proof.
  intros Hnone.
  by rw /finally_example /bind /try_except /bind /open_read /bind /get_files
        /= Hnone.
Qed.

Lemma finally_example_witness :
  finally_example notes_only =
    (inl NameError,
     World (heap notes_only) (stdout notes_only +:+ "File not found." +:+ nl)
           (files notes_only)).
Proof.
  apply (finally_example_raises_NameError_without_the_file notes_only).
  vm_compute; reflexivity.
Defined.

End FileHandlingFacts.

Module ContextManagerFacts.
Import Py ContextManagers.

(** The class [CustomContext] and the generator [custom_context] print
    the same three lines around a body that returns.  When the body
    raises, both let the exception through, but only the class prints
    "Exiting context": the generator's code after [yield] does not run. *)
Theorem generator_context_skips_its_exit_code_when_the_body_raises
    (w : world pyobj) :
  let entered (h : gmap loc pyobj) :=
    World h (stdout w +:+ "Entering context" +:+ nl) (files w) in
  let exited (w2 : world pyobj) :=
    World (heap w2) (stdout w2 +:+ "Exiting context" +:+ nl) (files w2) in
  (forall (body : loc -> M unit) (w2 : world pyobj),
      body (fresh (dom (heap w)))
           (entered (<[fresh (dom (heap w)) := CustomContextObj]> (heap w)))
        = (inr tt, w2) ->
      with_CustomContext body w = (inr tt, exited w2)) /\
  (forall (body : loc -> M unit) (e : pyexn) (w2 : world pyobj),
      body (fresh (dom (heap w)))
           (entered (<[fresh (dom (heap w)) := CustomContextObj]> (heap w)))
        = (inl e, w2) ->
      with_CustomContext body w = (inl e, exited w2)) /\
  (forall (body : M unit) (w2 : world pyobj),
      body (entered (heap w)) = (inr tt, w2) ->
      with_custom_context body w = (inr tt, exited w2)) /\
  (forall (body : M unit) (e : pyexn) (w2 : world pyobj),
      body (entered (heap w)) = (inl e, w2) ->
      with_custom_context body w = (inl e, w2)).
Proof.
  intros entered exited. repeat split.
  - intros body w2 Hbody.
    rw /with_CustomContext /bind /CustomContext /alloc /with_ /bind
       /CustomContext__enter__ /bind /print /=.
    by rw Hbody.
  - intros body e w2 Hbody.
    rw /with_CustomContext /bind /CustomContext /alloc /with_ /bind
       /CustomContext__enter__ /bind /print /=.
    by rw Hbody.
  - intros body w2 Hbody.
    rw /with_custom_context /with_ /bind /print /=. by rw Hbody.
  - intros body e w2 Hbody.
    rw /with_custom_context /with_ /bind /print /=. by rw Hbody.
Qed.

Lemma custom_context_witness :
  stdout (with_custom_context (print "Inside the context") (World ∅ "" ∅)).2
    = ("Entering context" +:+ nl) +:+ ("Inside the context" +:+ nl)
      +:+ "Exiting context" +:+ nl /\
  with_custom_context (raise (ValueError "An error occurred")) (World ∅ "" ∅)
    = (inl (ValueError "An error occurred"),
       World ∅ ("Entering context" +:+ nl) ∅) /\
  with_CustomContext (fun _ => raise (ValueError "An error occurred"))
                     (World ∅ "" ∅)
    = (inl (ValueError "An error occurred"),
       World {[ 0%nat := CustomContextObj ]}
             (("Entering context" +:+ nl) +:+ "Exiting context" +:+ nl) ∅).
Proof.
  destruct (generator_context_skips_its_exit_code_when_the_body_raises
              (World ∅ "" ∅)) as (_ & Hclass & Hreturns & Hraises).
  split; [|split].
  - by rw (Hreturns (print "Inside the context") _ eq_refl).
  - by apply (Hraises (raise (ValueError "An error occurred"))).
  - by rw (Hclass (fun _ => raise (ValueError "An error occurred"))
                  (ValueError "An error occurred") _ eq_refl).
Defined.

(** [with SuppressException():] ends normally whatever its body does:
    every exception of the body is swallowed and its text printed, and
    after a body that returns the line reads "Exception suppressed:
    None". *)
Theorem SuppressException_swallows_every_exception
    (str_exn : pyexn -> string) (body : M unit) (w : world pyobj)
    (r : pyexn + unit) (w2 : world pyobj) :
  body (World (<[fresh (dom (heap w)) := SuppressExceptionObj]> (heap w))
              (stdout w +:+ "Entering context" +:+ nl) (files w)) = (r, w2) ->
  with_SuppressException str_exn body w =
    (inr tt,
     World (heap w2)
           (stdout w2
            +:+ ("Exception suppressed: "
                 +:+ match r with inl e => str_exn e | inr _ => "None" end)
            +:+ nl)
           (files w2)).
Proof.
  intros Hbody.
  rw /with_SuppressException /bind /SuppressException /alloc /with_ /bind
     /SuppressException__enter__ /print /=.
  rw Hbody. by destruct r as [e|[]].
Qed.

Lemma SuppressException_witness :
  with_SuppressException str_of_message (raise (ValueError "An error occurred"))
                         (World ∅ "" ∅)
    = (inr tt,
       World {[ 0%nat := SuppressExceptionObj ]}
             (("Entering context" +:+ nl)
              +:+ "Exception suppressed: An error occurred" +:+ nl) ∅).
Proof.
  by rw (SuppressException_swallows_every_exception str_of_message
           (raise (ValueError "An error occurred")) (World ∅ "" ∅)
           (inl (ValueError "An error occurred")) _ eq_refl).
Defined.



(** [temporary_file] removes its file when the body ends, returning or
    raising, and the body's result or exception goes on; if the body has
    removed the file itself, [temporary_file] raises FileNotFoundError
    instead, also after a body that returned. *)
Theorem temporary_file_removes_its_file_after_any_body
    {A} (name : string) (body : string -> ScratchFiles.M A) (w : world unit)
    (r : pyexn + A) (w1 : world unit) :
  body name (World (heap w) (stdout w) (<[name := ""]> (files w))) = (r, w1) ->
  (is_Some (files w1 !! name) ->
   ScratchFiles.temporary_file name body w =
     (r, World (heap w1) (stdout w1) (delete name (files w1)))) /\
  (files w1 !! name = None ->
   ScratchFiles.temporary_file name body w = (inl (FileNotFoundError name), w1)).
Proof.
  intros Hbody.
  rw /ScratchFiles.temporary_file /bind /ScratchFiles.NamedTemporaryFile /bind
     /get_files /set_files /= /try_finally Hbody /ScratchFiles.os_remove /bind
     /get_files /=.
  split.
  - intros [c Hc]. by rw Hc.
  - intros Hnone. by rw Hnone.
Qed.

Lemma temporary_file_witness :
  ScratchFiles.temporary_file "tmpk3v9_x2a"
    (fun _ => raise (A := unit) (ValueError "An error occurred"))
    ScratchFiles.notes_only
    = (inl (ValueError "An error occurred"), ScratchFiles.notes_only) /\
  ScratchFiles.temporary_file "tmpk3v9_x2a"
    (fun name => ScratchFiles.os_remove name) ScratchFiles.notes_only
    = (inl (FileNotFoundError "tmpk3v9_x2a"), ScratchFiles.notes_only).
Proof.
  split.
  - destruct (temporary_file_removes_its_file_after_any_body "tmpk3v9_x2a"
                (fun _ => raise (A := unit) (ValueError "An error occurred"))
                ScratchFiles.notes_only _ _ eq_refl) as [Hthere _].
    rw Hthere; [eexists; vm_compute; reflexivity|].
    vm_compute. reflexivity.
  - destruct (temporary_file_removes_its_file_after_any_body "tmpk3v9_x2a"
                (fun name => ScratchFiles.os_remove name)
                ScratchFiles.notes_only (inr tt) ScratchFiles.notes_only
                ltac:(vm_compute; reflexivity)) as [_ Hgone].
    apply Hgone. vm_compute; reflexivity.
Defined.

End ContextManagerFacts.

Module CoreConceptsFacts.
Import Py ScratchFiles FileHandling CoreConcepts.

Lemma UserIterator__next__inside {U} (it : UserIteratorObj U) (user : U) :
  users it !! index it = Some user ->
  UserIterator__next__ it = (Some user, MkUserIterator (users it) (S (index it))).
Proof.
  intros Hu. rw /UserIterator__next__.
  apply lookup_lt_Some in Hu as Hlt.
  destruct (Nat.leb_spec (length (users it)) (index it)); [lia|].
  by rw Hu Nat.add_1_r.
Qed.

Lemma UserIterator__next__exhausted {U} (it : UserIteratorObj U) :
  (length (users it) <= index it)%nat -> UserIterator__next__ it = (None, it).
Proof.
  intros Hle. rw /UserIterator__next__.
  by destruct (Nat.leb_spec (length (users it)) (index it)); [|lia].
Qed.

(** The loop sees what is left of the list, from the index on. *)
Lemma for_in_rest {U} (fuel : nat) :
  forall (us : list U) (i : nat),
    (length us - i < fuel)%nat ->
    for_in fuel (MkUserIterator us i)
      = (drop i us, MkUserIterator us (i `max` length us)).
Proof.
  induction fuel as [|fuel IH]; intros us i Hfuel; [lia|].
  destruct (us !! i) as [user|] eqn:Hi.
  - apply lookup_lt_Some in Hi as Hlt.
    rw /= (UserIterator__next__inside (MkUserIterator us i) user Hi) /=.
    rw IH /=; [lia|].
    rw (drop_S us user i Hi). f_equal. f_equal. lia.
  - apply lookup_ge_None in Hi as Hge.
    rw /= (UserIterator__next__exhausted (MkUserIterator us i)) //.
    rw drop_ge //. f_equal. f_equal. lia.
Qed.

(** A [for] loop over a new UserIterator sees every user once, in the
    order of the list, and leaves the iterator at the end of the list.
    There [__next__] raises StopIteration and changes nothing, so a second
    loop over the same iterator sees no user at all. *)
Theorem UserIterator_yields_each_user_once {U} (us : list U) (fuel : nat) :
  (length us < fuel)%nat ->
  for_in fuel (UserIterator us) = (us, MkUserIterator us (length us)) /\
  UserIterator__next__ (MkUserIterator us (length us))
    = (None, MkUserIterator us (length us)) /\
  (forall fuel',
      for_in fuel' (for_in fuel (UserIterator us)).2
        = ([], MkUserIterator us (length us))).
Proof.
  intros Hfuel.
  assert (Hloop : for_in fuel (UserIterator us)
                  = (us, MkUserIterator us (length us))).
  { rw /UserIterator for_in_rest; [lia|]. by rw drop_0. }
  assert (Hstop : UserIterator__next__ (MkUserIterator us (length us))
                  = (None, MkUserIterator us (length us)))
    by (by apply UserIterator__next__exhausted).
  split; [done|]. split; [done|].
  intros [|fuel']; rw Hloop /= //. by rw Hstop.
Qed.

Lemma UserIterator_witness :
  for_in 3 (UserIterator ["Alice"; "Bob"])
    = (["Alice"; "Bob"], MkUserIterator ["Alice"; "Bob"] 2) /\
  for_in 3 (for_in 3 (UserIterator ["Alice"; "Bob"])).2
    = ([], MkUserIterator ["Alice"; "Bob"] 2).
Proof.
  destruct (UserIterator_yields_each_user_once ["Alice"; "Bob"] 3
              ltac:(simpl; lia)) as (Hloop & _ & Hagain).
  split; [exact Hloop|exact (Hagain 3%nat)].
Defined.

Section Json.
Variable json_dumps : json -> string.
Variable json_loads : string -> option json.
Variable refusal : string -> option pyexn.
Variable decode : string -> pyexn + string.
Variable encode : string -> pyexn + string.

Lemma write_json_run (file_path : string) (data : json) (w : world unit) :
  write_json json_dumps refusal encode file_path data w =
    match refusal file_path with
    | Some e =>
        (inl e,
         World (heap w) (after_prints (stdout w) ["Executing write_json..."])
               (files w))
    | None =>
        match encode (json_dumps data) with
        | inl e =>
            (inl e,
             World (heap w)
                   (after_prints (stdout w) ["Executing write_json..."])
                   (<[file_path := ""]> (files w)))
        | inr bytes =>
            (inr tt,
             World (heap w)
                   (after_prints (stdout w)
                      ["Executing write_json...";
                       "Execution of write_json completed." +:+ nl])
                   (<[file_path := bytes]> (files w)))
        end
    end.
Proof.
  rw /write_json /logger /bind /print /text_open_write /=.
  destruct (refusal file_path) as [e|]; [done|].
  rw /= /text_write. destruct (encode (json_dumps data)) as [e|bytes]; [done|].
  by rw /file_write /bind /get_files /set_files /= lookup_insert_eq
        insert_insert_eq.
Qed.

Lemma json_load_run (file_path : string) (w : world unit) :
  (file <- open_read file_path;;
   text <- text_read decode file;;
   match json_loads text with
   | Some data => ret data
   | None => raise JSONDecodeError
   end) w =
    (match files w !! file_path with
     | None => inl (FileNotFoundError file_path)
     | Some bytes =>
         match decode bytes with
         | inl e => inl e
         | inr text =>
             match json_loads text with
             | Some data => inr data
             | None => inl JSONDecodeError
             end
         end
     end, w).
Proof.
  rw /bind /open_read /bind /get_files /=.
  destruct (files w !! file_path) as [bytes|] eqn:Hf; [|done].
  rw /= /text_read /bind /file_read /bind /get_files /= Hf /=.
  destruct (decode bytes) as [e|text]; [done|].
  rw /ret /=. by destruct (json_loads text).
Qed.

Lemma read_json_run (file_path : string) (w : world unit) :
  read_json json_dumps json_loads refusal decode encode file_path w =
    let started :=
      World (heap w) (after_prints (stdout w) ["Executing read_json..."])
            (files w) in
    let completed (w' : world unit) :=
      World (heap w')
            (after_prints (stdout w')
               ["Execution of read_json completed." +:+ nl])
            (files w') in
    let create :=
      match
        write_json json_dumps refusal encode file_path sample_data
          (World (heap w)
                 (after_prints (stdout w)
                    ["Executing read_json...";
                     "File not found. Creating a new file with sample data."])
                 (files w))
      with
      | (inl e, w') => (inl e, w')
      | (inr _, w') => (inr sample_data, completed w')
      end in
    let refuse :=
      (inr (JList []),
       World (heap w)
             (after_prints (stdout w)
                ["Executing read_json...";
                 "Error decoding JSON file.";
                 "Execution of read_json completed." +:+ nl])
             (files w)) in
    match files w !! file_path with
    | None => create
    | Some bytes =>
        match decode bytes with
        | inl (FileNotFoundError _) => create
        | inl JSONDecodeError => refuse
        | inl e => (inl e, started)
        | inr text =>
            match json_loads text with
            | Some data => (inr data, completed started)
            | None => refuse
            end
        end
    end.
Proof.
  pose proof (json_load_run file_path) as Hload.
  rw /read_json /logger.
  remember (bind (open_read file_path) _) as load eqn:Hl in *. clear Hl.
  remember (write_json json_dumps refusal encode file_path sample_data)
    as save eqn:Hs in *.
  clear Hs.
  rw /bind /try_except /print /= Hload /=.
  destruct (files w !! file_path) as [bytes|] eqn:Hf.
  - destruct (decode bytes) as [[]|text]; simpl; try done.
    + by destruct (save _) as [[e|[]] w'].
    + by destruct (json_loads text).
  - simpl. by destruct (save _) as [[e|[]] w'].
Qed.


(** What [write_json] saved, [read_json] returns, where the path can be
    opened, the text written and read back as it was, and [json.loads]
    gives back what [json.dumps] wrote; the file then holds what was
    written and no other file has changed.  On a path that [open]
    refuses, [write_json] raises that exception after its first log line
    and saves nothing. *)
Theorem read_json_returns_what_write_json_saved
    (file_path : string) (data : json) (w : world unit) :
  (forall bytes : string,
      refusal file_path = None ->
      encode (json_dumps data) = inr bytes ->
      decode bytes = inr (json_dumps data) ->
      json_loads (json_dumps data) = Some data ->
      exists w',
        (_ <- write_json json_dumps refusal encode file_path data;;
         read_json json_dumps json_loads refusal decode encode file_path) w
        = (inr data, w') /\
        files w' = <[file_path := bytes]> (files w)) /\
  (forall e : pyexn,
      refusal file_path = Some e ->
      write_json json_dumps refusal encode file_path data w =
        (inl e,
         World (heap w) (after_prints (stdout w) ["Executing write_json..."])
               (files w))).
Proof.
  split.
  - intros bytes Hopen Hwritten Hread Hround.
    rw /bind write_json_run Hopen Hwritten read_json_run /= lookup_insert_eq.
    rw Hread Hround. by eexists.
  - intros e He. by rw write_json_run He.
Qed.

End Json.


Lemma read_json_round_trip_witness :
  (exists w',
      (_ <- write_json dumps_empty_list flat_directory ascii_encode
              "users.json" (JList []);;
       read_json dumps_empty_list loads_empty_list
         flat_directory ascii_decode ascii_encode "users.json")
        notes_only = (inr (JList []), w') /\
      files w' = <["users.json" := "[]"]> (files notes_only)) /\
  write_json dumps_empty_list flat_directory ascii_encode "" (JList [])
    notes_only
  = (inl (FileNotFoundError ""),
     World (heap notes_only)
           (after_prints (stdout notes_only) ["Executing write_json..."])
           (files notes_only)).
Proof.
  destruct (read_json_returns_what_write_json_saved
              dumps_empty_list loads_empty_list
              flat_directory ascii_decode ascii_encode
              "users.json" (JList []) notes_only) as [Hround _].
  destruct (read_json_returns_what_write_json_saved
              dumps_empty_list loads_empty_list
              flat_directory ascii_decode ascii_encode
              "" (JList []) notes_only) as [_ Hrefused].
  split; [by apply (Hround "[]")|by apply Hrefused].
Defined.

End CoreConceptsFacts.
